(** * Retrieval-and-answer pipeline of investor-qa-assistant (src/backend)

    A shallow embedding of the Python backend: the text chunker of
    [pdf_processor.py], the similarity search of [embedding_store.py] over
    the chunk table of [database.py], the ingestion path of [main.py], the
    response parser of [claude_interface.py], the chunk-based orchestrator
    of [query_engine.py] and the consolidation step of
    [langchain_query_engine.py]. *)

From Stdlib Require Import Bool Arith Lia List ZArith QArith String Ascii.
From Stdlib Require Import Qround Sorted Floats.
From Stdlib Require Lqa.
Import ListNotations.

Open Scope string_scope.
Open Scope nat_scope.

(* ================================================================== *)
(** ** Python string primitives *)

Module Py.

(** [str.isspace] on one character, code points 0..255 (Latin-1). *)
Definition is_space (c : ascii) : bool :=
  let n := nat_of_ascii c in
  ((9 <=? n) && (n <=? 13)) || ((28 <=? n) && (n <=? 32))
  || (n =? 133) || (n =? 160).

Fixpoint lstrip_l (l : list ascii) : list ascii :=
  match l with
  | [] => []
  | c :: r => if is_space c then lstrip_l r else l
  end.

Fixpoint rstrip_l (l : list ascii) : list ascii :=
  match l with
  | [] => []
  | c :: r =>
      match rstrip_l r with
      | [] => if is_space c then [] else [c]
      | r' => c :: r'
      end
  end.

(** [s.strip()] *)
Definition strip (s : string) : string :=
  string_of_list_ascii (lstrip_l (rstrip_l (list_ascii_of_string s))).

(** [s[i:j]] for non-negative [i], [j] (Python clamps [j] to [len s]). *)
Definition slice (s : string) (i j : nat) : string := substring i (j - i) s.

(** [text.rfind(sub, s, e)] for non-negative [s], [e] and non-empty [sub]:
    the highest [i] with [s <= i] and [i + len sub <= min e (len text)]
    where [sub] occurs, else [-1]. *)
Definition occurs_at (text sub : string) (i : nat) : bool :=
  String.prefix sub (substring i (String.length sub) text).

Fixpoint rfind_down (text sub : string) (s d : nat) : Z :=
  if occurs_at text sub (s + d) then Z.of_nat (s + d)
  else match d with
       | O => (-1)%Z
       | S d' => rfind_down text sub s d'
       end.

Definition rfind (text sub : string) (s e : nat) : Z :=
  let e' := Nat.min e (String.length text) in
  if e' <? s + String.length sub then (-1)%Z
  else rfind_down text sub s (e' - String.length sub - s).

(** [s.startswith(p)] *)
Definition startswith (s p : string) : bool := String.prefix p s.

(** [s.replace(old, "")] for non-empty [old]: every non-overlapping
    occurrence, scanned left to right, is removed. *)
Fixpoint remove_all_fuel (fuel : nat) (old s : string) : string :=
  match fuel with
  | O => s
  | S f =>
      match s with
      | EmptyString => EmptyString
      | String c r =>
          if String.prefix old s
          then remove_all_fuel f old (substring (String.length old)
                                         (String.length s - String.length old) s)
          else String c (remove_all_fuel f old r)
      end
  end.

Definition replace_empty (s old : string) : string :=
  remove_all_fuel (String.length s) old s.

(** [s.split(sep)] for a one-character separator. *)
Fixpoint split_char (sep : ascii) (s : string) : list string :=
  match s with
  | EmptyString => [EmptyString]
  | String c r =>
      if Ascii.eqb c sep then EmptyString :: split_char sep r
      else match split_char sep r with
           | [] => [String c EmptyString]
           | w :: ws => String c w :: ws
           end
  end.

(** [sep.join(xs)] *)
Fixpoint join (sep : string) (xs : list string) : string :=
  match xs with
  | [] => EmptyString
  | [x] => x
  | x :: ys => x ++ sep ++ join sep ys
  end.

(** [sub in s] *)
Fixpoint contains (s sub : string) : bool :=
  String.prefix sub s ||
  match s with
  | EmptyString => false
  | String _ r => contains r sub
  end.

(** [s.lower()]; only ASCII letters matter for the keyword tests below. *)
Definition lower_char (c : ascii) : ascii :=
  let n := nat_of_ascii c in
  if (65 <=? n) && (n <=? 90) then ascii_of_nat (n + 32) else c.

Fixpoint lower (s : string) : string :=
  match s with
  | EmptyString => EmptyString
  | String c r => String (lower_char c) (lower r)
  end.

Definition is_digit (c : ascii) : bool :=
  let n := nat_of_ascii c in (48 <=? n) && (n <=? 57).

(** [re.findall(r'\d+', s)] restricted to its first element, as [int]. *)
Fixpoint digits_value (acc : Z) (s : string) : Z :=
  match s with
  | String c r =>
      if is_digit c
      then digits_value (acc * 10 + Z.of_nat (nat_of_ascii c - 48))%Z r
      else acc
  | EmptyString => acc
  end.

Fixpoint first_number (s : string) : option Z :=
  match s with
  | EmptyString => None
  | String c r => if is_digit c then Some (digits_value 0 s) else first_number r
  end.

End Py.

(** Python exceptions of class [Exception], carrying [str(e)]. *)
Inductive Exc (A : Type) : Type :=
| Ok : A -> Exc A
| Err : string -> Exc A.
Arguments Ok {A} _.
Arguments Err {A} _.

(* ================================================================== *)
(** ** Text chunker ([pdf_processor.py], class [PDFProcessor]) *)

Module Chunker.

(** The processor's settings; the sizes are the non-negative [int]s that
    the upload form passes. *)
Record PDFProcessor := { chunk_size : nat; chunk_overlap : nat }.

Definition sentence_endings : list string :=
  [". "; "! "; "? "; "." ++ String "010" ""; "!" ++ String "010" "";
   "?" ++ String "010" ""].

(** [_find_sentence_boundary(text, start, end)] *)
Definition _find_sentence_boundary (text : string) (start end_ : nat) : nat :=
  let search_start := Nat.max start (end_ - 200) in
  let best_pos :=
    fold_left
      (fun best ending =>
         let pos := Py.rfind text ending search_start end_ in
         if (best <? pos)%Z then (pos + Z.of_nat (String.length ending))%Z
         else best)
      sentence_endings (Z.of_nat start) in
  if (Z.of_nat start <? best_pos)%Z then Z.to_nat best_pos else end_.

(** [_find_word_boundary(text, start, end)] *)
Definition _find_word_boundary (text : string) (start end_ : nat) : nat :=
  let search_start := Nat.max start (end_ - 100) in
  let pos := Py.rfind text " " search_start end_ in
  if (Z.of_nat start <? pos)%Z then Z.to_nat (pos + 1) else end_.

(** The end position the loop body computes for a chunk starting at
    [start]. *)
Definition chunk_end (p : PDFProcessor) (text : string) (start : nat) : nat :=
  let end_ := start + chunk_size p in
  if end_ <? String.length text then
    let sentence_end := _find_sentence_boundary text start end_ in
    if start <? sentence_end then sentence_end
    else
      let word_end := _find_word_boundary text start end_ in
      if start <? word_end then word_end else end_
  else end_.

(** One emitted chunk with the window [text[start:end]] it was cut from. *)
Record Span := { sp_start : nat; sp_end : nat; sp_chunk : string }.

(** The [while start < len(text)] loop, run with [fuel] iterations at most;
    [None] means the fuel ran out before the loop exited. *)
Fixpoint split_loop (p : PDFProcessor) (text : string) (fuel start : nat)
  : option (list Span) :=
  match fuel with
  | O => None
  | S f =>
      if start <? String.length text then
        let end_ := chunk_end p text start in
        let chunk := Py.strip (Py.slice text start end_) in
        let emitted :=
          if String.eqb chunk "" then []
          else [{| sp_start := start; sp_end := end_; sp_chunk := chunk |}] in
        let start' := Nat.max (start + 1) (end_ - chunk_overlap p) in
        if String.length text <=? start' then Some emitted
        else option_map (app emitted) (split_loop p text f start')
      else Some []
  end.

Definition split_spans (p : PDFProcessor) (text : string) : option (list Span) :=
  if String.eqb text "" then Some []
  else split_loop p text (String.length text) 0.

(** [_split_text_into_chunks(text)] *)
Definition _split_text_into_chunks (p : PDFProcessor) (text : string)
  : option (list string) :=
  option_map (map sp_chunk) (split_spans p text).

(** Number of text positions shared by the windows of two spans. *)
Definition window_overlap (a b : Span) : nat :=
  Nat.min (sp_end a) (sp_end b) - Nat.max (sp_start a) (sp_start b).

Fixpoint consecutive_overlaps_le (ov : nat) (l : list Span) : Prop :=
  match l with
  | a :: ((b :: _) as r) => window_overlap a b <= ov /\ consecutive_overlaps_le ov r
  | _ => True
  end.

End Chunker.

(* ================================================================== *)
(** ** Response parsing ([claude_interface.py], class [ClaudeInterface]) *)

Module Parser.

Definition nl : string := String (ascii_of_nat 10) EmptyString.

Record Parsed := { answer : string; confidence : Z; reasoning : string }.

(** [_extract_confidence_score(confidence_text)]; its own [try] has
    nothing that can raise on a [str]. *)
Definition _extract_confidence_score (confidence_text : string) : Z :=
  match Py.first_number confidence_text with
  | Some score => Z.max 0 (Z.min 100 score)
  | None =>
      let t := Py.lower confidence_text in
      if existsb (Py.contains t) ["high"; "very confident"; "certain"] then 85
      else if existsb (Py.contains t) ["medium"; "moderate"; "somewhat"] then 65
      else if existsb (Py.contains t) ["low"; "uncertain"; "unclear"] then 35
      else 50
  end%Z.

(** [_clean_answer_text(answer)] *)
Definition _clean_answer_text (answer : string) : string :=
  if String.eqb answer "" then ""
  else Py.join nl (map Py.strip (filter (fun l => negb (String.eqb (Py.strip l) ""))
                                    (Py.split_char (ascii_of_nat 10) answer))).

Inductive Section_ := NoSection | AnswerS | ConfidenceS | ReasoningS.

Record ParseState := { ps_parsed : Parsed; ps_section : Section_ }.

(** The body of the [for line in sections] loop. *)
Definition parse_line (st : ParseState) (raw_line : string) : ParseState :=
  let line := Py.strip raw_line in
  let pr := ps_parsed st in
  if Py.startswith line "ANSWER:" then
    let content := Py.strip (Py.replace_empty line "ANSWER:") in
    {| ps_section := AnswerS;
       ps_parsed := if String.eqb content "" then pr
                    else {| answer := content; confidence := confidence pr;
                            reasoning := reasoning pr |} |}
  else if Py.startswith line "CONFIDENCE:" then
    let confidence_text := Py.strip (Py.replace_empty line "CONFIDENCE:") in
    {| ps_section := ConfidenceS;
       ps_parsed := {| answer := answer pr;
                       confidence := _extract_confidence_score confidence_text;
                       reasoning := reasoning pr |} |}
  else if Py.startswith line "REASONING:" then
    let content := Py.strip (Py.replace_empty line "REASONING:") in
    {| ps_section := ReasoningS;
       ps_parsed := if String.eqb content "" then pr
                    else {| answer := answer pr; confidence := confidence pr;
                            reasoning := content |} |}
  else if String.eqb line "" then st
  else
    match ps_section st with
    | NoSection => st
    | AnswerS =>
        {| ps_section := AnswerS;
           ps_parsed := {| answer := if String.eqb (answer pr) "" then line
                                     else answer pr ++ nl ++ line;
                           confidence := confidence pr;
                           reasoning := reasoning pr |} |}
    | ReasoningS =>
        {| ps_section := ReasoningS;
           ps_parsed := {| answer := answer pr; confidence := confidence pr;
                           reasoning := if String.eqb (reasoning pr) "" then line
                                        else reasoning pr ++ " " ++ line |} |}
    | ConfidenceS => st
    end.

(** The statements of the [try] block of [_parse_response]: [str] methods
    on [str] values and [_extract_confidence_score], none of which raises. *)
Definition parse_body (response_text : string) : Exc Parsed :=
  let init := {| ps_section := NoSection;
                 ps_parsed := {| answer := ""; confidence := 50;
                                 reasoning := "" |} |} in
  let st := fold_left parse_line (Py.split_char (ascii_of_nat 10) response_text)
                      init in
  let pr := ps_parsed st in
  let a := _clean_answer_text (answer pr) in
  Ok {| answer := if String.eqb a "" then response_text else a;
        confidence := confidence pr; reasoning := reasoning pr |}.

(** The [except Exception as e] handler of [_parse_response]. *)
Definition parse_fallback (response_text e : string) : Parsed :=
  {| answer := response_text; confidence := 50;
     reasoning := "Error parsing response: " ++ e |}.

Definition guarded_parse (body : string -> Exc Parsed) (response_text : string)
  : Parsed :=
  match body response_text with
  | Ok pr => pr
  | Err e => parse_fallback response_text e
  end.

(** [_parse_response(response_text)] *)
Definition _parse_response (response_text : string) : Parsed :=
  guarded_parse parse_body response_text.

(** A line of the reply that the parser treats as a section header. *)
Definition is_header_line (raw_line : string) : bool :=
  let line := Py.strip raw_line in
  Py.startswith line "ANSWER:" || Py.startswith line "CONFIDENCE:"
  || Py.startswith line "REASONING:".

Definition has_header (response_text : string) : bool :=
  existsb is_header_line (Py.split_char (ascii_of_nat 10) response_text).

(** The parser of the sibling provider [openrouter_interface.py]
    ([OpenRouterInterface._parse_response]), which keeps the lines that
    follow each header, also in the confidence section. *)
Module OpenRouter.

Definition upper_char (c : ascii) : ascii :=
  let n := nat_of_ascii c in
  if (97 <=? n) && (n <=? 122) then ascii_of_nat (n - 32) else c.

(** [s.upper()]; only ASCII letters matter for the header tests. *)
Fixpoint upper (s : string) : string :=
  match s with
  | EmptyString => EmptyString
  | String c r => String (upper_char c) (upper r)
  end.

(** The [sections] dict, one optional entry per key. *)
Record Sections := { s_answer : option string; s_confidence : option string;
                     s_reasoning : option string }.

Record OState := { o_section : Section_; o_sections : Sections;
                   o_content : list string }.

Definition store_section (sec : Section_) (v : string) (d : Sections) : Sections :=
  match sec with
  | AnswerS => {| s_answer := Some v; s_confidence := s_confidence d;
                  s_reasoning := s_reasoning d |}
  | ConfidenceS => {| s_answer := s_answer d; s_confidence := Some v;
                      s_reasoning := s_reasoning d |}
  | ReasoningS => {| s_answer := s_answer d; s_confidence := s_confidence d;
                     s_reasoning := Some v |}
  | NoSection => d
  end.

(** [if current_section and current_content: sections[current_section] = ...] *)
Definition flush (st : OState) : Sections :=
  match o_section st, o_content st with
  | NoSection, _ | _, [] => o_sections st
  | sec, content => store_section sec (Py.strip (Py.join nl content)) (o_sections st)
  end.

Definition start_section (st : OState) (sec : Section_) (line : string) (k : nat)
  : OState :=
  {| o_sections := flush st; o_section := sec;
     o_content := if k <? String.length line
                  then [Py.strip (substring k (String.length line - k) line)]
                  else [] |}.

Definition or_line (st : OState) (raw_line : string) : OState :=
  let line := Py.strip raw_line in
  if Py.startswith (upper line) "ANSWER:" then start_section st AnswerS line 7
  else if Py.startswith (upper line) "CONFIDENCE:" then
    start_section st ConfidenceS line 11
  else if Py.startswith (upper line) "REASONING:" then
    start_section st ReasoningS line 10
  else match o_section st with
       | NoSection => st
       | _ => if String.eqb line "" then st
              else {| o_section := o_section st; o_sections := o_sections st;
                      o_content := o_content st ++ [line] |}
       end.

Definition _parse_response (response_text : string) : Parsed :=
  let init := {| o_section := NoSection; o_content := [];
                 o_sections := {| s_answer := None; s_confidence := None;
                                  s_reasoning := None |} |} in
  let st := fold_left or_line
              (Py.split_char (ascii_of_nat 10) (Py.strip response_text)) init in
  let secs := flush st in
  {| answer := match s_answer secs with
               | Some a => if String.eqb a "" then Py.strip response_text else a
               | None => Py.strip response_text
               end;
     confidence := match s_confidence secs with
                   | Some c => match Py.first_number c with
                               | Some n => Z.min 100 (Z.max 0 n)
                               | None => 70
                               end
                   | None => 70
                   end%Z;
     reasoning := match s_reasoning secs with
                  | Some r => if String.eqb r "" then "Standard response confidence"
                              else r
                  | None => "Standard response confidence"
                  end |}.

End OpenRouter.

End Parser.

(* ================================================================== *)
(** ** Document store, ingestion and similarity search
    ([database.py], [embedding_store.py], [main.py]) *)

Module Store.

(** Embedding vectors as the [list[float]] that [embedding.tolist()]
    produces; floating-point numbers are modelled as rationals. *)
Definition vec := list Q.

(** The [embedding] column: a JSON array or its text encoding. *)
Inductive StoredEmbedding := EmbList (v : vec) | EmbText (s : string).

(** A row of the [chunks] table. *)
Record ChunkRow := { c_id : nat; c_pdf_id : nat; c_chunk_text : string;
                     c_chunk_index : nat; c_embedding : option StoredEmbedding }.

(** A row of the [pdfs] table. *)
Record PdfRow := { p_id : nat; p_filename : string; p_file_path : string;
                   p_is_confidential : bool; p_chunk_count : nat }.

(** The two tables; ids are assigned by the database from counters.
    [embed_log] lists the documents whose chunk texts were handed to the
    embedding model, one entry per [store_chunks] call. *)
Record DB := { pdfs : list PdfRow; chunks : list ChunkRow;
               next_pdf_id : nat; next_chunk_id : nat; embed_log : list nat }.

Definition empty_db : DB :=
  {| pdfs := []; chunks := []; next_pdf_id := 0; next_chunk_id := 0;
     embed_log := [] |}.

(** [Database.store_pdf_metadata]: insert a row, return its id; the
    insert's outcome comes from the environment ([pdf_insert_ok]), and
    [upload_one] only calls this when it succeeds. *)
Definition store_pdf_metadata (filename file_path : string) (is_confidential : bool)
  (chunk_count : nat) (db : DB) : nat * DB :=
  let id := next_pdf_id db in
  (id, {| pdfs := pdfs db ++ [{| p_id := id; p_filename := filename;
                                 p_file_path := file_path;
                                 p_is_confidential := is_confidential;
                                 p_chunk_count := chunk_count |}];
          chunks := chunks db; next_pdf_id := S id;
          next_chunk_id := next_chunk_id db; embed_log := embed_log db |}).

(** [Database.store_chunk_embedding]: insert one chunk row. *)
Definition store_chunk_embedding (pdf_id : nat) (chunk_text : string)
  (chunk_index : nat) (embedding : vec) (db : DB) : DB :=
  {| pdfs := pdfs db;
     chunks := chunks db ++ [{| c_id := next_chunk_id db; c_pdf_id := pdf_id;
                                c_chunk_text := chunk_text;
                                c_chunk_index := chunk_index;
                                c_embedding := Some (EmbList embedding) |}];
     next_pdf_id := next_pdf_id db; next_chunk_id := S (next_chunk_id db);
     embed_log := embed_log db |}.

(** [Database.clear_all_data]: delete the chunks with [chunk_index >= 0]
    and the pdfs with [chunk_count >= 0], that is all rows. *)
Definition clear_all_data (db : DB) : DB :=
  {| pdfs := []; chunks := []; next_pdf_id := next_pdf_id db;
     next_chunk_id := next_chunk_id db; embed_log := embed_log db |}.

(** A chunk produced by [PDFProcessor.process_pdf]. *)
Record PChunk := { pc_text : string; pc_index : nat }.

(** The collaborators the ingestion path calls: the sentence-transformer
    model (batch and single), the database insert of one chunk row, the
    insert of a file's [pdfs] row by [Database.store_pdf_metadata] (which
    raises when the insert fails or returns no data), and the
    [SKIP_EMBEDDINGS] environment switch. *)
Record Env := {
  encode_batch : list string -> Exc (list vec);
  encode_one : string -> Exc vec;
  insert_ok : string -> bool;
  pdf_insert_ok : string -> bool;
  skip_embeddings : bool }.

(** [text.split()] : maximal runs of non-whitespace. *)
Fixpoint words_l (cur : list ascii) (l : list ascii) : list (list ascii) :=
  match l with
  | [] => match cur with [] => [] | _ => [rev cur] end
  | c :: r =>
      if Py.is_space c
      then match cur with [] => words_l [] r | _ => rev cur :: words_l [] r end
      else words_l (c :: cur) r
  end.

Fixpoint dedup (l : list ascii) : list ascii :=
  match l with
  | [] => []
  | c :: r => let d := dedup r in if existsb (Ascii.eqb c) d then d else c :: d
  end.

(** [EmbeddingStore._clean_text(text)] *)
Definition _clean_text (text : string) : string :=
  if String.eqb text "" then ""
  else
    let joined := Py.join " " (map string_of_list_ascii
                                 (words_l [] (list_ascii_of_string text))) in
    let lines := Py.split_char (ascii_of_nat 10) joined in
    let keep line :=
      negb ((50 <? String.length line)
            && (List.length (dedup (filter (fun c => negb (Ascii.eqb c " "))
                                      (list_ascii_of_string line))) <? 5)) in
    Py.join Parser.nl (filter keep lines).

Section Ingest.
Variable env : Env.

(** [_generate_embedding(text)] and [_generate_batch_embeddings(texts)] *)
Definition _generate_embedding (text : string) : Exc vec :=
  match encode_one env (_clean_text text) with
  | Ok v => Ok v
  | Err e => Err ("Failed to generate embedding: " ++ e)
  end.
Definition _generate_batch_embeddings (texts : list string) : Exc (list vec) :=
  encode_batch env (map _clean_text texts).

(** The [for i in range(0, len(chunk_texts), batch_size)] loop with its
    per-item fallback; [fuel] bounds the number of batches. *)
Fixpoint embed_batches (fuel : nat) (texts : list string) : list (option vec) :=
  match fuel, texts with
  | O, _ | _, [] => []
  | S f, _ =>
      let batch := firstn 16 texts in
      let here := match _generate_batch_embeddings batch with
                  | Ok es => map Some es
                  | Err _ => map (fun t => match _generate_embedding t with
                                           | Ok v => Some v
                                           | Err _ => None
                                           end) batch
                  end in
      here ++ embed_batches f (skipn 16 texts)
  end.

Definition count_none (l : list (option vec)) : nat :=
  List.length (filter (fun o => match o with None => true | Some _ => false end) l).

(** The individual-storage fallback: [self.db.store_chunks_batch] is not a
    method of [Database], so the batch insert always raises and each chunk
    with an embedding is inserted on its own.  Returns the database and
    the number of rows stored. *)
Fixpoint store_individually (pdf_id : nat) (l : list (PChunk * option vec))
  (db : DB) : DB * nat :=
  match l with
  | [] => (db, 0)
  | (ch, Some e) :: r =>
      if insert_ok env (pc_text ch)
      then let (db', n) := store_individually pdf_id r
                             (store_chunk_embedding pdf_id (pc_text ch)
                                (pc_index ch) e db) in (db', S n)
      else store_individually pdf_id r db
  | (_, None) :: r => store_individually pdf_id r db
  end.

Definition log_embedding (pdf_id : nat) (db : DB) : DB :=
  {| pdfs := pdfs db; chunks := chunks db; next_pdf_id := next_pdf_id db;
     next_chunk_id := next_chunk_id db; embed_log := pdf_id :: embed_log db |}.

(** [EmbeddingStore.store_chunks(pdf_id, chunks)]: the database after the
    call, and whether it raised. *)
Definition store_chunks (pdf_id : nat) (cs : list PChunk) (db : DB)
  : DB * Exc unit :=
  let db0 := log_embedding pdf_id db in
  let all_embeddings := embed_batches (List.length cs) (map pc_text cs) in
  let pairs := combine cs all_embeddings in
  let failed := count_none (map snd pairs) in
  if List.length cs <? failed * 10 then (db0, Err "Too many chunk failures")
  else if List.length (filter (fun pe => match snd pe with Some _ => true
                                                       | None => false end) pairs)
          =? 0 then (db0, Err "No chunks were successfully processed")
  else let (db1, n) := store_individually pdf_id pairs db0 in
       (db1, if n =? 0 then Err "No chunks were successfully processed" else Ok tt).

(** An uploaded file: the outcome of saving it to storage and of
    extracting its text. *)
Record UploadFile := { uf_filename : string; uf_saved : Exc string;
                       uf_text : Exc string }.

(** [enumerate(chunks)] in [process_pdf]. *)
Definition indexed_chunks (texts : list string) : list PChunk :=
  map (fun ti => {| pc_text := fst ti; pc_index := snd ti |})
      (combine texts (seq 0 (List.length texts))).

(** One iteration of the [for file, is_confidential in zip(...)] loop of
    [upload_pdfs]: the database after it and whether it succeeded. *)
Definition upload_one (p : Chunker.PDFProcessor) (file : UploadFile)
  (is_confidential : bool) (db : DB) : DB * bool :=
  match uf_saved file, uf_text file with
  | Ok file_path, Ok text =>
      match Chunker._split_text_into_chunks p text with
      | None => (db, false)
      | Some texts =>
          let cs := indexed_chunks texts in
          if negb (pdf_insert_ok env (uf_filename file)) then (db, false) else
          let (pdf_id, db1) := store_pdf_metadata (uf_filename file) file_path
                                 is_confidential (List.length cs) db in
          if negb is_confidential && negb (skip_embeddings env)
          then let (db2, r) := store_chunks pdf_id cs db1 in
               (db2, match r with Ok _ => true | Err _ => false end)
          else (db1, true)
      end
  | _, _ => (db, false)
  end.

(** [upload_pdfs(files, confidential, ...)] over the files and flags. *)
Fixpoint upload_pdfs (p : Chunker.PDFProcessor)
  (files : list (UploadFile * bool)) (db : DB) : DB :=
  match files with
  | [] => db
  | (f, conf) :: r => upload_pdfs p r (fst (upload_one p f conf db))
  end.

End Ingest.

(** A row of [get_all_chunks_with_embeddings]: the chunk row joined with
    the [filename] and [is_confidential] of its pdf. *)
Record Flat := { f_row : ChunkRow; f_filename : string;
                 f_is_confidential : bool }.

Definition flatten (db : DB) (c : ChunkRow) : Flat :=
  match find (fun p => Nat.eqb (p_id p) (c_pdf_id c)) (pdfs db) with
  | Some p => {| f_row := c; f_filename := p_filename p;
                 f_is_confidential := p_is_confidential p |}
  | None => {| f_row := c; f_filename := "Unknown document";
               f_is_confidential := false |}
  end.

(** [Database.get_all_chunks_with_embeddings(limit)]: the first [limit]
    rows of the [chunks] table, in the order the table returns them. *)
Definition get_all_chunks_with_embeddings (limit : nat) (db : DB) : list Flat :=
  map (flatten db) (firstn limit (chunks db)).

(** A search result: the row with its [similarity]. *)
Record Hit := { h_chunk : Flat; similarity : Q }.

Definition Qltb (a b : Q) : bool := negb (Qle_bool b a).

(** [results.sort(key=lambda x: x["similarity"], reverse=True)]: Python's
    sort is stable, so hits with equal scores keep their order. *)
Fixpoint insert_desc (x : Hit) (l : list Hit) : list Hit :=
  match l with
  | [] => [x]
  | y :: r => if Qltb (similarity y) (similarity x) then x :: l
              else y :: insert_desc x r
  end.

Definition sort_desc (l : list Hit) : list Hit :=
  fold_left (fun acc x => insert_desc x acc) l [].

(** [xs[:limit]] for a Python [int] [limit]. *)
Definition py_take {A} (limit : Z) (xs : list A) : list A :=
  if (0 <=? limit)%Z then firstn (Z.to_nat limit) xs
  else firstn (List.length xs - Z.to_nat (- limit)) xs.

Section Search.
Variable env : Env.
(** [json.loads] of a stored text embedding, [None] when it raises. *)
Variable json_loads : string -> option vec.
(** [_cosine_similarity] as a rational-valued function of the parsed
    vectors; its [float64] definition is [Cosine._cosine_similarity]. *)
Variable cosine : vec -> vec -> Q.

(** The embedding of a candidate, [None] when the loop skips it:
    [if "embedding" in chunk and chunk["embedding"]] and the JSON parse. *)
Definition candidate_embedding (ch : Flat) : option vec :=
  match c_embedding (f_row ch) with
  | None => None
  | Some (EmbList []) => None
  | Some (EmbList v) => Some v
  | Some (EmbText s) => if String.eqb s "" then None else json_loads s
  end.

Definition score_candidates (query_embedding : vec) (min_similarity : Q)
  (cands : list Flat) : list Hit :=
  flat_map (fun ch =>
              match candidate_embedding ch with
              | None => []
              | Some e =>
                  let sim := cosine query_embedding e in
                  if Qle_bool min_similarity sim
                  then [{| h_chunk := ch; similarity := sim |}] else []
              end) cands.

(** [EmbeddingStore.search_similar_chunks(query, limit, min_similarity)] *)
Definition search_similar_chunks (db : DB) (query : string) (limit : Z)
  (min_similarity : Q) : Exc (list Hit) :=
  match _generate_embedding env query with
  | Err e => Err ("Failed to search similar chunks: " ++ e)
  | Ok query_embedding =>
      let cands := get_all_chunks_with_embeddings 50 db in
      Ok (py_take limit (sort_desc (score_candidates query_embedding
                                      min_similarity cands)))
  end.

End Search.

(** The requests that change the store: [POST /upload-pdfs] (with the
    collaborators' behaviour during that request and the chunking settings
    it carries) and [DELETE /clear-all]. *)
Inductive Request :=
| UploadReq (env : Env) (p : Chunker.PDFProcessor) (files : list (UploadFile * bool))
| ClearReq.

Fixpoint serve (rs : list Request) (db : DB) : DB :=
  match rs with
  | [] => db
  | UploadReq env p files :: r => serve r (upload_pdfs env p files db)
  | ClearReq :: r => serve r (clear_all_data db)
  end.

End Store.

(* ================================================================== *)
(** ** Provider replies and orchestrators
    ([query_engine.py], [langchain_query_engine.py]) *)

Module Orchestrators.
Import Parser.

Definition dq : string := String (ascii_of_nat 34) EmptyString.

(** [str(n)] for a non-negative [int]. *)
Fixpoint str_nat_fuel (fuel n : nat) (acc : string) : string :=
  match fuel with
  | O => acc
  | S f =>
      let d := String (ascii_of_nat (48 + n mod 10)) acc in
      if n <? 10 then d else str_nat_fuel f (n / 10) d
  end.

Definition str_nat (n : nat) : string := str_nat_fuel (S n) n "".

(** The dict a provider's [generate_answer] returns, read with [.get]. *)
Record Reply := { rp_answer : option string; rp_confidence : option Z;
                  rp_reasoning : option string }.

(** An entry of [pdf_responses]: the file name and the [answer] of the
    dict [_send_to_ai_model] returned for it (that dict always has the
    key, so [.get('answer', ...)] reads it). *)
Record PdfResponse := { pr_filename : string; pr_answer : string }.

Definition responses_text (pdf_responses : list PdfResponse) : string :=
  Py.join (nl ++ nl)
    (map (fun r => "=== " ++ pr_filename r ++ " ===" ++ nl ++ pr_answer r)
         pdf_responses).

Definition consolidation_prompt (question : string)
  (pdf_responses : list PdfResponse) : string :=
  nl ++ "Based on the following responses from multiple PDF documents, "
  ++ "please provide a short 2-sentence summary answer to the question: "
  ++ dq ++ question ++ dq ++ nl ++ nl ++ "Individual PDF Responses:" ++ nl
  ++ responses_text pdf_responses ++ nl ++ nl
  ++ "Please provide a concise 2-sentence summary that captures the key "
  ++ "insights from all documents." ++ nl ++ nl ++ "Consolidated Answer:" ++ nl.

(** The answer of the [except] branch of [_consolidate_responses]. *)
Definition combined_answer (pdf_responses : list PdfResponse) : string :=
  Py.join (nl ++ nl)
    (map (fun r => "**From " ++ pr_filename r ++ ":**" ++ nl ++ pr_answer r)
         pdf_responses).

(** [LangchainQueryEngine._consolidate_responses(question, pdf_responses,
    ai_model)], where [generate] is [generate_answer] of the interface the
    [ai_model] string selects, called with [context_chunks=[]]. *)
Definition _consolidate_responses (generate : string -> Exc Reply)
  (question : string) (pdf_responses : list PdfResponse) : Parsed :=
  let rt := responses_text pdf_responses in
  match generate (consolidation_prompt question pdf_responses) with
  | Ok response =>
      let consolidated_answer :=
        match rp_answer response with
        | Some a => a | None => "Unable to consolidate responses" end in
      {| answer := consolidated_answer ++ nl ++ nl ++ "---" ++ nl ++ nl
                   ++ "**Individual PDF Responses:**" ++ nl ++ nl ++ rt;
         confidence := Z.min 85 (match rp_confidence response with
                                 | Some c => c | None => 70%Z end);
         reasoning := "Consolidated analysis from "
                      ++ str_nat (List.length pdf_responses) ++ " PDF documents" |}
  | Err _ =>
      {| answer := combined_answer pdf_responses; confidence := 70;
         reasoning := "Combined responses from "
                      ++ str_nat (List.length pdf_responses)
                      ++ " PDF documents (consolidation failed)" |}
  end.

(** An entry of the [sources] list of [QueryEngine._build_source_info]. *)
Record Source := { s_filename : string; s_chunk_index : nat;
                   s_relevance_score : Q; s_preview : string }.

(** [round(x, 1)]: nearest multiple of [0.1], ties to even. *)
Definition round1 (x : Q) : Q :=
  let t := (x * 10)%Q in
  let f := Qfloor t in
  let d := (t - inject_Z f)%Q in
  let n := if Store.Qltb d (1 # 2) then f
           else if Store.Qltb (1 # 2) d then (f + 1)%Z
           else if Z.even f then f else (f + 1)%Z in
  (inject_Z n / 10)%Q.

(** [QueryEngine._get_chunk_preview(text, max_length=150)] *)
Definition _get_chunk_preview (text : string) : string :=
  if String.eqb text "" then ""
  else if String.length text <=? 150 then text
  else
    let truncated := substring 0 150 text in
    let last_sentence :=
      Z.max (Py.rfind truncated ". " 0 150)
            (Z.max (Py.rfind truncated "! " 0 150) (Py.rfind truncated "? " 0 150)) in
    if (105 <? last_sentence)%Z
    then substring 0 (Z.to_nat (last_sentence + 1)) truncated ++ "..."
    else
      let last_space := Py.rfind truncated " " 0 150 in
      if (120 <? last_space)%Z then substring 0 (Z.to_nat last_space) truncated ++ "..."
      else truncated ++ "...".

Definition _build_source_info (cs : list Store.Hit) : list Source :=
  map (fun c => {| s_filename := Store.f_filename (Store.h_chunk c);
                   s_chunk_index := Store.c_chunk_index (Store.f_row (Store.h_chunk c));
                   s_relevance_score := round1 (Store.similarity c * 100);
                   s_preview := _get_chunk_preview
                                  (Store.c_chunk_text (Store.f_row (Store.h_chunk c))) |})
      cs.

(** The settings of a [QueryEngine] instance. *)
Record QueryEngine := { max_context_chunks : Z; min_similarity_threshold : Q }.

Definition default_engine : QueryEngine :=
  {| max_context_chunks := 10; min_similarity_threshold := 1 # 10 |}.

(** The dict [answer_question] returns. *)
Record Response := { qa_answer : string; qa_confidence : Z; qa_reasoning : string;
                     qa_sources : list Source; qa_chunks_found : nat;
                     qa_question : string }.

Section Engine.
Variable qe : QueryEngine.
(** [self.embedding_store.search_similar_chunks(query, limit, min_similarity)] *)
Variable search : string -> Z -> Q -> Exc (list Store.Hit).
(** [self.ai_interface.generate_answer(question, context_chunks)] *)
Variable generate : string -> list Store.Hit -> Exc Reply.

(** [QueryEngine._retrieve_relevant_chunks(question)]; the added
    [relevance_score] key copies [similarity] and is read by no caller. *)
Definition _retrieve_relevant_chunks (question : string) : list Store.Hit :=
  match search question (max_context_chunks qe) (min_similarity_threshold qe) with
  | Ok cs => cs
  | Err _ => []
  end.

(** The [except Exception as e] branch of [answer_question]. *)
Definition error_response (question e : string) : Response :=
  {| qa_answer := "I apologize, but I encountered an error processing your question: " ++ e;
     qa_confidence := 0; qa_reasoning := "Error occurred during processing";
     qa_sources := []; qa_chunks_found := 0; qa_question := question |}.

(** [QueryEngine.answer_question(question)]; [response["answer"]] and
    [response["confidence"]] raise [KeyError] when the key is missing. *)
Definition answer_question (question : string) : Response :=
  let relevant_chunks := _retrieve_relevant_chunks question in
  match generate question relevant_chunks with
  | Err e => error_response question e
  | Ok response =>
      match rp_answer response, rp_confidence response with
      | Some a, Some c =>
          {| qa_answer := a; qa_confidence := c;
             qa_reasoning := match rp_reasoning response with
                             | Some r => r | None => "" end;
             qa_sources := _build_source_info relevant_chunks;
             qa_chunks_found := List.length relevant_chunks;
             qa_question := question |}
      | None, _ => error_response question "'answer'"
      | _, None => error_response question "'confidence'"
      end
  end.

End Engine.

End Orchestrators.

(* ================================================================== *)
(** ** Cosine similarity ([EmbeddingStore._cosine_similarity]) *)

(** The numpy arithmetic of [_cosine_similarity] on [float64] arrays, as
    IEEE-754 binary64 operations (Rocq's primitive floats). *)
Module Cosine.
Local Open Scope float_scope.

(** [np.dot(a, b)] for one-dimensional [float64] arrays of one length:
    the products added from the left. BLAS may group the additions
    differently; all groupings agree when every partial sum is exact, as
    for small integers. *)
Fixpoint dot_from (acc : float) (a b : list float) : float :=
  match a, b with
  | x :: a', y :: b' => dot_from (acc + x * y) a' b'
  | _, _ => acc
  end.

Definition dot (a b : list float) : float := dot_from 0 a b.

(** [np.linalg.norm(a)], which numpy computes as [sqrt(a.dot(a))]. *)
Definition norm (a : list float) : float := PrimFloat.sqrt (dot a a).

(** [_cosine_similarity(a, b)]: [np.dot] raises on arrays of different
    lengths, and the [except] branch returns [0.0]; [norm_a == 0] is the
    IEEE equality. *)
Definition _cosine_similarity (a b : list float) : float :=
  if negb (Nat.eqb (List.length a) (List.length b)) then 0
  else if orb (PrimFloat.eqb (norm a) 0) (PrimFloat.eqb (norm b) 0) then 0
  else dot a b / (norm a * norm b).

End Cosine.

(* ================================================================== *)
(** ** Provider interfaces ([claude_interface.py]; the prompt text is the
    same in [openai_interface.py] and [openrouter_interface.py]) *)

Module Providers.
Import Parser Orchestrators.

Section Prompt.
(** The [:.2f] format of a similarity. *)
Variable fmt2 : Q -> string.

(** One entry of the [for i, chunk in enumerate(context_chunks, 1)] loop. *)
Definition document_entry (i : nat) (chunk : Store.Hit) : string :=
  "Document " ++ str_nat i ++ " (" ++ Store.f_filename (Store.h_chunk chunk)
  ++ ", relevance: " ++ fmt2 (Store.similarity chunk) ++ "):" ++ nl
  ++ Store.c_chunk_text (Store.f_row (Store.h_chunk chunk)) ++ nl ++ nl.

Fixpoint document_entries (i : nat) (chunks : list Store.Hit) : string :=
  match chunks with
  | [] => ""
  | c :: r => document_entry i c ++ document_entries (S i) r
  end.

(** [ClaudeInterface._build_prompt(question, context_chunks)] *)
Definition _build_prompt (question : string) (context_chunks : list Store.Hit)
  : string :=
  let context_text :=
    match context_chunks with
    | [] => "CONTEXT: No relevant documents found." ++ nl ++ nl
    | _ => "CONTEXT FROM DOCUMENTS:" ++ nl ++ nl
           ++ document_entries 1 context_chunks
    end in
  context_text ++ nl ++ nl ++ "QUESTION: " ++ question ++ nl ++ nl
  ++ "Please provide your response in the following format:" ++ nl ++ nl
  ++ "ANSWER:" ++ nl ++ "[Your answer here]" ++ nl ++ nl
  ++ "CONFIDENCE: [Provide a confidence score from 0-100]" ++ nl ++ nl
  ++ "REASONING: [Briefly explain your confidence score]" ++ nl ++ nl
  ++ "Guidelines:" ++ nl
  ++ "- Use only the information provided in the context" ++ nl
  ++ "- Do only light clean up of the language for clarity".

(** Whether [ANTHROPIC_API_KEY] is set ([initialize] raises otherwise). *)
Variable api_key_set : bool.
(** [self.client.messages.create(...)] followed by
    [response.content[0].text]: the reply text, or the exception raised. *)
Variable messages_create : string -> Exc string.

(** [ClaudeInterface.generate_answer(question, context_chunks)]; the
    returned dict always has the [answer], [confidence] and [reasoning]
    keys. *)
Definition generate_answer (question : string) (context_chunks : list Store.Hit)
  : Exc Reply :=
  if negb api_key_set
  then Err "ANTHROPIC_API_KEY must be set in environment variables"
  else
    match messages_create (_build_prompt question context_chunks) with
    | Err e => Err ("Failed to generate answer: " ++ e)
    | Ok answer_text =>
        let parsed_response := Parser._parse_response answer_text in
        Ok {| rp_answer := Some (answer parsed_response);
              rp_confidence := Some (confidence parsed_response);
              rp_reasoning := Some (reasoning parsed_response) |}
    end.

End Prompt.

End Providers.

(* ================================================================== *)
(** ** Storage helpers ([database.py], class [Database]) *)

Module Database.
Import Store.

(** What the storage [upload] call did: raised, returned a response with
    a truthy [error], with truthy [data], or with neither. *)
Inductive StorageOutcome :=
| StorageRaised (e : string)
| StorageError (e : string)
| StorageData
| StorageSilent.

(** [file.filename.split('.')[-1] if '.' in file.filename else 'pdf'] *)
Definition file_extension (filename : string) : string :=
  if Py.contains filename "." then last (Py.split_char "." filename) ""
  else "pdf".

(** [Database.save_file(file, is_confidential)]: [file_id] is
    [str(uuid.uuid4())], [read] the outcome of [await file.read()] and
    [outcome] that of the storage upload. *)
Definition save_file (file_id filename : string) (read : Exc unit)
  (outcome : StorageOutcome) : Exc string :=
  let storage_path := "pdfs/" ++ file_id ++ "." ++ file_extension filename in
  match read with
  | Err e => Err ("Failed to save file: " ++ e)
  | Ok _ =>
      match outcome with
      | StorageRaised _ | StorageError _ => Ok ("local/" ++ storage_path)
      | StorageData | StorageSilent => Ok storage_path
      end
  end.

(** [Database.get_pdf_by_id(pdf_id)]: [result.data[0] if result.data else
    None] for the rows of [pdfs] with that id. *)
Definition get_pdf_by_id (pdf_id : nat) (db : DB) : option PdfRow :=
  hd_error (filter (fun p => Nat.eqb (p_id p) pdf_id) (pdfs db)).

End Database.

(* ================================================================== *)
(** ** The question endpoint ([main.py], [get_ai_interface] and
    [POST /ask-question]) *)

Module Api.
Import Parser Orchestrators.

Inductive AiInterface :=
| openai_gpt4_interface
| openai_gpt35_interface
| gemini_interface
| claude_interface.

(** [get_ai_interface(model_type)] *)
Definition get_ai_interface (model_type : string) : AiInterface :=
  if String.eqb model_type "openai-gpt4" then openai_gpt4_interface
  else if String.eqb model_type "openai-gpt35" then openai_gpt35_interface
  else if String.eqb model_type "gemini-pro" then gemini_interface
  else claude_interface.

(** The [chunking_settings] object of the request body, one optional
    entry per key. *)
Record ChunkingSettings := { chunkSize : option Z; chunkOverlap : option Z;
                             maxChunks : option Z; aiModel : option string }.

(** The request body: [question] ([None] when missing or [null]) and
    [chunking_settings] ([None] when missing). *)
Record AskRequest := { rq_question : option string;
                       rq_chunking_settings : option ChunkingSettings }.

(** The JSON body of a successful answer. *)
Record AskResponse := {
  ar_question : string; ar_answer : string; ar_confidence : Z;
  ar_sources : list Source; ar_model_used : string;
  ar_chunk_size : Z; ar_chunk_overlap : Z; ar_max_chunks : Z }.

(** The endpoint's outcome: a JSON body, or an [HTTPException]. *)
Inductive HTTPResult :=
| HTTPOk (body : AskResponse)
| HTTPException (status_code : nat) (detail : string).

(** [str(HTTPException(status_code, detail))], which Starlette renders as
    ["<status_code>: <detail>"]. *)
Definition http_exception_str (status_code : nat) (detail : string) : string :=
  str_nat status_code ++ ": " ++ detail.

(** [chunking_settings.get(key, default)] *)
Definition setting {A} (cs : option ChunkingSettings)
  (key : ChunkingSettings -> option A) (default : A) : A :=
  match cs with
  | Some s => match key s with Some v => v | None => default end
  | None => default
  end.

Section Ask.
(** [embedding_store.search_similar_chunks] *)
Variable search : string -> Z -> Q -> Exc (list Store.Hit).
(** [generate_answer] of each AI interface. *)
Variable generate_for : AiInterface -> string -> list Store.Hit -> Exc Reply.

(** The [try] block of [ask_question(request)]: the returned body, or
    the [str] of the exception it raises. *)
Definition ask_question_body (request : AskRequest) : Exc AskResponse :=
  let user_question := match rq_question request with
                       | Some q => q | None => "" end in
  if String.eqb user_question "" then
    Err (http_exception_str 400 "Question is required")
  else
    let cs := rq_chunking_settings request in
    let chunk_size := setting cs chunkSize 4000%Z in
    let chunk_overlap := setting cs chunkOverlap 400%Z in
    let max_chunks := setting cs maxChunks 20%Z in
    let ai_model := setting cs aiModel "claude" in
    let temp_query_engine := {| max_context_chunks := max_chunks;
                                min_similarity_threshold := 1 # 10 |} in
    let response := answer_question temp_query_engine search
                      (generate_for (get_ai_interface ai_model)) user_question in
    Ok {| ar_question := user_question; ar_answer := qa_answer response;
          ar_confidence := qa_confidence response;
          ar_sources := qa_sources response; ar_model_used := ai_model;
          ar_chunk_size := chunk_size; ar_chunk_overlap := chunk_overlap;
          ar_max_chunks := max_chunks |}.

(** [ask_question(request)]: the [except Exception as e] handler turns
    whatever the [try] block raises, the [HTTPException(400)] included,
    into [HTTPException(500, f"Error processing question: {str(e)}")]. *)
Definition ask_question (request : AskRequest) : HTTPResult :=
  match ask_question_body request with
  | Ok body => HTTPOk body
  | Err e => HTTPException 500 ("Error processing question: " ++ e)
  end.

End Ask.

End Api.

(* ================================================================== *)
(** ** Question analysis ([QueryEngine.analyze_question_complexity]) *)

Module Analysis.
Import Py.

(** The dict [analyze_question_complexity] returns. *)
Record Analysis := { an_type : string; an_keywords : list string;
                     an_complexity : string; an_requires_calculation : bool;
                     an_requires_comparison : bool }.

Definition financial_keywords : list string :=
  ["revenue"; "profit"; "earnings"; "margin"; "growth"; "sales"].
Definition risk_keywords : list string :=
  ["risk"; "challenge"; "threat"; "concern"; "issue"].
Definition comparison_keywords : list string :=
  ["compare"; "versus"; "vs"; "difference"; "change"].
Definition calculation_indicators : list string :=
  ["calculate"; "sum"; "total"; "percentage"; "%"; "ratio"].

(** [QueryEngine.analyze_question_complexity(question)]; [word in
    question_lower] is [contains], [question.split()] is [words_l]. *)
Definition analyze_question_complexity (question : string) : Analysis :=
  let question_lower := lower question in
  let has w := contains question_lower w in
  let '(ty, kws) :=
    if existsb has financial_keywords
    then ("financial", filter has financial_keywords)
    else if existsb has risk_keywords
    then ("risk", filter has risk_keywords)
    else ("general", []) in
  let n := List.length (Store.words_l [] (list_ascii_of_string question)) in
  {| an_type := ty; an_keywords := kws;
     an_complexity := if n <? 10 then "simple"
                      else if 25 <? n then "complex" else "medium";
     an_requires_calculation := existsb has calculation_indicators;
     an_requires_comparison := existsb has comparison_keywords |}.

End Analysis.

(* ================================================================== *)
(** ** Notions used by the statements, and sample inputs *)

Module Invariants.
Import Store.

(** Hit [b] may follow hit [a] in a list ranked by descending score. *)
Definition ge_sim (a b : Hit) : Prop := (similarity b <= similarity a)%Q.

(** [db'] differs from [db] only by chunk rows and embedding-log entries
    for the document [pdf_id]. *)
Definition extends_with (pdf_id : nat) (db db' : DB) : Prop :=
  pdfs db' = pdfs db /\ next_pdf_id db' = next_pdf_id db
  /\ (forall c, In c (chunks db') -> In c (chunks db) \/ c_pdf_id c = pdf_id)
  /\ (forall x, In x (embed_log db') -> In x (embed_log db) \/ x = pdf_id).

(** The invariant of the store under ingestion and bulk clear. *)
Definition Inv (db : DB) : Prop :=
  (forall c, In c (chunks db) -> c_pdf_id c < next_pdf_id db)
  /\ (forall p, In p (pdfs db) -> p_id p < next_pdf_id db)
  /\ (forall x, In x (embed_log db) -> x < next_pdf_id db)
  /\ (forall c p, In c (chunks db) -> In p (pdfs db) -> p_id p = c_pdf_id c ->
                  p_is_confidential p = false)
  /\ (forall p, In p (pdfs db) -> p_is_confidential p = true ->
                ~ In (p_id p) (embed_log db)).

End Invariants.

Module SearchSamples.
Import Store.

Fixpoint dotQ (a b : vec) : Q :=
  match a, b with
  | x :: a', y :: b' => (x * y + dotQ a' b')%Q
  | _, _ => 0%Q
  end.

Definition sample_env : Env :=
  {| encode_batch := fun ts => Ok (map (fun _ => [1; 0]%Q) ts);
     encode_one := fun _ => Ok [1; 0]%Q;
     insert_ok := fun _ => true;
     pdf_insert_ok := fun _ => true;
     skip_embeddings := false |}.

Definition sample_proc : Chunker.PDFProcessor :=
  {| Chunker.chunk_size := 20; Chunker.chunk_overlap := 5 |}.

Definition secret_file : UploadFile :=
  {| uf_filename := "memo.pdf"; uf_saved := Ok "pdfs/memo.pdf";
     uf_text := Ok "Merger talks with Acme. Do not disclose." |}.

Definition public_file : UploadFile :=
  {| uf_filename := "q3.pdf"; uf_saved := Ok "pdfs/q3.pdf";
     uf_text := Ok "Revenue grew 12 percent. Margins held." |}.

Definition sample_requests : list Request :=
  [UploadReq sample_env sample_proc [(secret_file, true); (public_file, false)]].

(** A table of 51 chunk rows; row [i] has embedding [[i; 0]]. *)
Definition row_of (i : nat) : ChunkRow :=
  {| c_id := i; c_pdf_id := 0; c_chunk_text := "row";
     c_chunk_index := i; c_embedding := Some (EmbList [inject_Z (Z.of_nat i); 0]%Q) |}.

Definition db51 : DB :=
  {| pdfs := [{| p_id := 0; p_filename := "big.pdf"; p_file_path := "pdfs/big.pdf";
                 p_is_confidential := false; p_chunk_count := 51 |}];
     chunks := map row_of (seq 0 51); next_pdf_id := 1; next_chunk_id := 51;
     embed_log := [0] |}.

End SearchSamples.

Module ParserSamples.
Import Parser.

Definition three_section_reply : string :=
  "ANSWER:" ++ nl ++ "Foo" ++ nl ++ "CONFIDENCE:" ++ nl ++ "80" ++ nl
  ++ "REASONING:" ++ nl ++ "Bar".

End ParserSamples.

Module OrchestratorSamples.
Import Parser Orchestrators.

(** The model of a [QueryEngine] whose embedding model failed to load:
    every search raises. *)
Definition broken_store_env : Store.Env :=
  {| Store.encode_batch := fun _ => Err "'NoneType' object has no attribute 'encode'";
     Store.encode_one := fun _ => Err "'NoneType' object has no attribute 'encode'";
     Store.insert_ok := fun _ => true; Store.pdf_insert_ok := fun _ => true;
     Store.skip_embeddings := false |}.

Definition broken_search (q : string) (limit : Z) (m : Q) : Exc (list Store.Hit) :=
  Store.search_similar_chunks broken_store_env (fun _ => None) SearchSamples.dotQ
    SearchSamples.db51 q limit m.

Definition stub_generate (q : string) (cs : list Store.Hit) : Exc Reply :=
  Ok {| rp_answer := Some "The documents give no revenue figure.";
        rp_confidence := Some 40%Z; rp_reasoning := Some "No context" |}.

(** The store after [sample_requests]: the public file is indexed. *)
Definition indexed_db : Store.DB := Store.serve SearchSamples.sample_requests Store.empty_db.

Definition sample_generate (q : string) (cs : list Store.Hit) : Exc Reply :=
  Ok {| rp_answer := Some "Revenue grew 12 percent."; rp_confidence := Some 80%Z;
        rp_reasoning := Some "Stated in q3.pdf" |}.

End OrchestratorSamples.

(* ================================================================== *)
(** ** Lemmas on the string primitives *)

Module PyFacts.
Import Py.

Lemma rstrip_l_idem (l : list ascii) : rstrip_l (rstrip_l l) = rstrip_l l.
Proof.
  induction l as [|c r IH]; [reflexivity|].
  simpl. destruct (rstrip_l r) as [|x y] eqn:E.
  - destruct (is_space c) eqn:Hc; simpl; [reflexivity|].
    rewrite Hc. reflexivity.
  - change (match rstrip_l (x :: y) with
            | [] => if is_space c then [] else [c]
            | r' => c :: r'
            end = c :: x :: y).
    rewrite IH. reflexivity.
Qed.

Lemma lstrip_l_idem (l : list ascii) : lstrip_l (lstrip_l l) = lstrip_l l.
Proof.
  induction l as [|c r IH]; [reflexivity|].
  simpl. destruct (is_space c) eqn:Hc; [exact IH|].
  simpl. rewrite Hc. reflexivity.
Qed.

Lemma rstrip_lstrip_comm (l : list ascii) :
  rstrip_l (lstrip_l l) = lstrip_l (rstrip_l l).
Proof.
  induction l as [|c r IH]; [reflexivity|].
  simpl. destruct (is_space c) eqn:Hc.
  - rewrite IH. destruct (rstrip_l r) as [|x y]; simpl; [reflexivity|].
    rewrite Hc. reflexivity.
  - simpl. destruct (rstrip_l r) as [|x y]; simpl; rewrite ?Hc; simpl;
      rewrite ?Hc; reflexivity.
Qed.

Lemma strip_idem (s : string) : strip (strip s) = strip s.
Proof.
  unfold strip. rewrite list_ascii_of_string_of_list_ascii.
  rewrite <- rstrip_lstrip_comm, lstrip_l_idem, rstrip_lstrip_comm,
    rstrip_l_idem.
  reflexivity.
Qed.

Lemma rfind_down_bound (text sub : string) (s d : nat) :
  rfind_down text sub s d = (-1)%Z \/
  exists k, k <= d /\ rfind_down text sub s d = Z.of_nat (s + k).
Proof.
  induction d as [|d IH]; simpl.
  - destruct (occurs_at text sub (s + 0)); [right; exists 0; split; auto|auto].
  - destruct (occurs_at text sub (s + S d)).
    + right. exists (S d). auto.
    + destruct IH as [H|[k [Hk H]]]; [left; exact H|].
      right. exists k. split; [lia|exact H].
Qed.

(** [rfind] returns [-1] or an index whose occurrence lies in [[s, e)]. *)
Lemma rfind_bound (text sub : string) (s e : nat) :
  rfind text sub s e = (-1)%Z \/
  exists i, rfind text sub s e = Z.of_nat i /\ s <= i
            /\ i + String.length sub <= e.
Proof.
  unfold rfind.
  destruct (Nat.min e (String.length text) <? s + String.length sub) eqn:E;
    [left; reflexivity|].
  apply Nat.ltb_ge in E.
  destruct (rfind_down_bound text sub s
              (Nat.min e (String.length text) - String.length sub - s))
    as [H|[k [Hk H]]]; [left; exact H|].
  right. exists (s + k). split; [exact H|]. split; [lia|].
  pose proof (Nat.le_min_l e (String.length text)). lia.
Qed.

End PyFacts.

Module ChunkerFacts.
Import Chunker.

Lemma sentence_boundary_le (text : string) (start end_ : nat) :
  start <= end_ -> _find_sentence_boundary text start end_ <= end_.
Proof.
  intros Hse. unfold _find_sentence_boundary.
  set (ss := Nat.max start (end_ - 200)).
  assert (Hfold : forall (l : list string) (b : Z),
             (0 <= b <= Z.of_nat end_)%Z ->
             (0 <= fold_left (fun best ending =>
                if (best <? Py.rfind text ending ss end_)%Z
                then (Py.rfind text ending ss end_
                      + Z.of_nat (String.length ending))%Z
                else best)
                l b <= Z.of_nat end_)%Z).
  { induction l as [|x l IH]; intros b Hb; simpl; [exact Hb|].
    apply IH. destruct (b <? Py.rfind text x ss end_)%Z eqn:Hlt; [|exact Hb].
    apply Z.ltb_lt in Hlt.
    destruct (PyFacts.rfind_bound text x ss end_) as [H|[i [H [_ Hi]]]];
      rewrite H in *; lia. }
  match goal with |- context [fold_left ?f ?l ?b] =>
    pose proof (Hfold l b ltac:(lia)) as Hb;
    destruct (Z.of_nat start <? fold_left f l b)%Z
  end; [|lia].
  apply Nat2Z.inj_le. rewrite Z2Nat.id; lia.
Qed.

Lemma word_boundary_le (text : string) (start end_ : nat) :
  _find_word_boundary text start end_ <= end_.
Proof.
  unfold _find_word_boundary.
  destruct (PyFacts.rfind_bound text " " (Nat.max start (end_ - 100)) end_)
    as [H|[i [H [_ Hi]]]]; rewrite H; simpl in *.
  - destruct (Z.of_nat start <? -1)%Z; lia.
  - destruct (Z.of_nat start <? Z.of_nat i)%Z; lia.
Qed.

(** The boundary search only moves the end of a chunk backwards. *)
Lemma chunk_end_le (p : PDFProcessor) (text : string) (start : nat) :
  chunk_end p text start <= start + chunk_size p.
Proof.
  unfold chunk_end.
  destruct (start + chunk_size p <? String.length text); [|lia].
  pose proof (sentence_boundary_le text start (start + chunk_size p)
                ltac:(lia)).
  pose proof (word_boundary_le text start (start + chunk_size p)).
  repeat match goal with |- context [if ?b then _ else _] => destruct b end;
    lia.
Qed.

End ChunkerFacts.

Module ChunkerLoop.
Import Chunker.

Section Loop.
Variable p : PDFProcessor.
Variable text : string.

Lemma split_loop_some (f start : nat) :
  start < String.length text -> String.length text <= start + f ->
  exists l, split_loop p text f start = Some l.
Proof.
  revert start. induction f as [|f IH]; intros start Hlt Hle; [lia|].
  simpl. apply Nat.ltb_lt in Hlt as Hlt'. rewrite Hlt'.
  set (start' := Nat.max (start + 1) (chunk_end p text start - chunk_overlap p)).
  destruct (String.length text <=? start') eqn:E; [eexists; reflexivity|].
  apply Nat.leb_gt in E.
  destruct (IH start') as [l Hl]; [exact E|lia|].
  rewrite Hl. eexists. reflexivity.
Qed.

Lemma split_loop_chunks (f start : nat) (l : list Span) :
  split_loop p text f start = Some l ->
  forall x, In x l -> Py.strip (sp_chunk x) = sp_chunk x /\ sp_chunk x <> "".
Proof.
  revert start l. induction f as [|f IH]; intros start l H; [discriminate|].
  simpl in H.
  destruct (start <? String.length text); [|injection H as <-; contradiction].
  set (chunk := Py.strip (Py.slice text start (chunk_end p text start))) in H.
  assert (Hem : forall x,
             In x (if String.eqb chunk "" then []
                   else [{| sp_start := start; sp_end := chunk_end p text start;
                            sp_chunk := chunk |}]) ->
             Py.strip (sp_chunk x) = sp_chunk x /\ sp_chunk x <> "").
  { intros x Hx. destruct (String.eqb chunk "") eqn:Ec; [contradiction|].
    destruct Hx as [<-|[]]. simpl. split.
    - apply PyFacts.strip_idem.
    - intro Hc. rewrite Hc in Ec. discriminate. }
  destruct (_ <=? _); [injection H as <-; exact Hem|].
  destruct (split_loop p text f _) as [r|] eqn:Er; [|discriminate].
  injection H as <-. intros x Hx. apply in_app_or in Hx as [Hx|Hx].
  - exact (Hem x Hx).
  - exact (IH _ r Er x Hx).
Qed.

Lemma split_loop_spans (f start : nat) (l : list Span) :
  split_loop p text f start = Some l ->
  (forall x, In x l -> start <= sp_start x
                       /\ sp_end x <= sp_start x + chunk_size p)
  /\ consecutive_overlaps_le (chunk_overlap p) l.
Proof.
  revert start l. induction f as [|f IH]; intros start l H; [discriminate|].
  simpl in H.
  destruct (start <? String.length text); [|injection H as <-; simpl; tauto].
  pose proof (ChunkerFacts.chunk_end_le p text start) as Hend.
  set (e := chunk_end p text start) in *.
  set (chunk := Py.strip (Py.slice text start e)) in H.
  set (start' := Nat.max (start + 1) (e - chunk_overlap p)) in H.
  set (em := if String.eqb chunk "" then []
             else [{| sp_start := start; sp_end := e; sp_chunk := chunk |}]) in H.
  assert (Hem : forall x, In x em -> start = sp_start x /\ sp_end x = e).
  { intros x Hx. unfold em in Hx. destruct (String.eqb chunk "");
      [contradiction|]. destruct Hx as [<-|[]]. simpl. auto. }
  assert (Hlen : List.length em <= 1).
  { unfold em. destruct (String.eqb chunk ""); simpl; lia. }
  destruct (_ <=? _).
  { injection H as <-. split.
    - intros x Hx. destruct (Hem x Hx). lia.
    - destruct em as [|a [|b r]]; simpl in *; auto; lia. }
  destruct (split_loop p text f start') as [r|] eqn:Er; [|discriminate].
  injection H as <-. destruct (IH start' r Er) as [Hr Hcr].
  split.
  - intros x Hx. apply in_app_or in Hx as [Hx|Hx].
    + destruct (Hem x Hx). lia.
    + destruct (Hr x Hx). lia.
  - destruct em as [|a [|b q]]; simpl in Hlen; [exact Hcr| |lia].
    simpl. destruct r as [|h r]; [exact I|]. split; [|exact Hcr].
    destruct (Hem a (or_introl eq_refl)) as [Ha1 Ha2].
    destruct (Hr h (or_introl eq_refl)) as [Hh _].
    unfold window_overlap. lia.
Qed.

End Loop.
End ChunkerLoop.

(* ================================================================== *)
(** ** Claims on the chunker *)

Module ChunkerClaims.
Import Chunker.

(** Claim C2: for every text and every chunk size and overlap (the overlap
    may exceed the chunk size), the chunking loop exits within
    [len(text)] iterations, so [_split_text_into_chunks] returns a result;
    every returned chunk is non-empty after trimming (indeed trimming
    leaves it unchanged); the empty text gives no chunks. *)
Theorem C2_chunker_total_nonempty (p : PDFProcessor) (text : string) :
  (exists chunks, _split_text_into_chunks p text = Some chunks
                  /\ forall c, In c chunks -> Py.strip c <> "")
  /\ _split_text_into_chunks p "" = Some [].
Proof.
  split; [|reflexivity].
  unfold _split_text_into_chunks, split_spans.
  destruct (String.eqb text "") eqn:Et.
  { exists []. split; [reflexivity|intros c []]. }
  assert (Hn : 0 < String.length text).
  { destruct text; [discriminate|simpl; lia]. }
  destruct (ChunkerLoop.split_loop_some p text (String.length text) 0 Hn
              ltac:(lia)) as [l Hl].
  rewrite Hl. exists (map sp_chunk l). split; [reflexivity|].
  intros c Hc. apply in_map_iff in Hc as [x [<- Hx]].
  destruct (ChunkerLoop.split_loop_chunks p text _ _ l Hl x Hx) as [Hs Hne].
  rewrite Hs. exact Hne.
Qed.

(** Claim C8: for every text and settings, each chunk's window
    [text[start:end]] ends at most [chunk_size] (hence at most
    [chunk_size + 200], the boundary-search window) characters after its
    nominal start, and the windows of any two consecutive returned chunks
    share at most [chunk_overlap] positions.  The spans are exactly the
    chunks [_split_text_into_chunks] returns. *)
Theorem C8_chunk_bounds_overlap (p : PDFProcessor) (text : string)
  (spans : list Span) (H : split_spans p text = Some spans) :
  _split_text_into_chunks p text = Some (map sp_chunk spans)
  /\ (forall sp, In sp spans -> sp_end sp <= sp_start sp + chunk_size p + 200)
  /\ consecutive_overlaps_le (chunk_overlap p) spans.
Proof.
  unfold _split_text_into_chunks. rewrite H. split; [reflexivity|].
  unfold split_spans in H. destruct (String.eqb text "").
  { injection H as <-. simpl. split; [intros sp []|exact I]. }
  destruct (ChunkerLoop.split_loop_spans p text _ _ _ H) as [Hb Hc].
  split; [|exact Hc]. intros sp Hsp. destruct (Hb sp Hsp). lia.
Qed.

Lemma C8_chunk_bounds_overlap_witness :
  exists spans,
    split_spans {| chunk_size := 10; chunk_overlap := 3 |}
      "Hello there. This is a test! okay and more words here" = Some spans
    /\ _split_text_into_chunks {| chunk_size := 10; chunk_overlap := 3 |}
      "Hello there. This is a test! okay and more words here"
       = Some (map sp_chunk spans).
Proof.
  eexists. split; [vm_compute; reflexivity|].
  apply (C8_chunk_bounds_overlap {| chunk_size := 10; chunk_overlap := 3 |}).
  vm_compute. reflexivity.
Defined.

End ChunkerClaims.

(* ================================================================== *)
(** ** Claims on the response parser *)

Module ParserClaims.
Import Parser ParserSamples.

(** Claim C4 (evaluation at the reply of the claim): parsing
    ["ANSWER:\nFoo\nCONFIDENCE:\n80\nREASONING:\nBar"] gives answer ["Foo"]
    and reasoning ["Bar"] but confidence [50], not [80]: the
    [CONFIDENCE:] header scores the empty text after the colon, and the
    line ["80"] that follows it is appended to no section.  The OpenRouter
    parser of the same code base reads [80] from that reply. *)
Theorem C4_three_section_reply_confidence_lost :
  _parse_response three_section_reply
    = {| answer := "Foo"; confidence := 50; reasoning := "Bar" |}
  /\ OpenRouter._parse_response three_section_reply
    = {| answer := "Foo"; confidence := 80; reasoning := "Bar" |}.
Proof. split; vm_compute; reflexivity. Qed.

Lemma parse_line_no_header (st : ParseState) (l : string) :
  ps_section st = NoSection -> is_header_line l = false ->
  parse_line st l = st.
Proof.
  intros Hs Hl. unfold is_header_line in Hl. unfold parse_line.
  apply orb_false_elim in Hl as [Hl Hr]. apply orb_false_elim in Hl as [Ha Hc].
  rewrite Ha, Hc, Hr. rewrite Hs.
  destruct (String.eqb (Py.strip l) ""); reflexivity.
Qed.

Lemma fold_parse_line_no_header (lines : list string) (st : ParseState) :
  ps_section st = NoSection -> existsb is_header_line lines = false ->
  fold_left parse_line lines st = st.
Proof.
  revert st. induction lines as [|l ls IH]; intros st Hs Hl; [reflexivity|].
  simpl in Hl. apply orb_false_elim in Hl as [H1 H2].
  simpl. rewrite parse_line_no_header by assumption. apply IH; assumption.
Qed.

(** Claim C5: a reply with no section header line parses to the whole raw
    reply as answer with confidence [50] (so the answer is non-empty when
    the reply is); the body of the [try] block raises on no reply; and
    whenever the body raises [e], the handler returns the raw reply, [50]
    and a reasoning note ["Error parsing response: " ++ str(e)]. *)
Theorem C5_no_header_raw_answer (response_text : string)
  (H : has_header response_text = false) :
  _parse_response response_text
    = {| answer := response_text; confidence := 50; reasoning := "" |}
  /\ (response_text <> "" -> answer (_parse_response response_text) <> "")
  /\ (forall r, exists pr, parse_body r = Ok pr)
  /\ (forall body e, body response_text = Err e ->
        guarded_parse body response_text
          = {| answer := response_text; confidence := 50;
               reasoning := "Error parsing response: " ++ e |}).
Proof.
  assert (Hp : _parse_response response_text
               = {| answer := response_text; confidence := 50; reasoning := "" |}).
  { unfold _parse_response, guarded_parse, parse_body.
    rewrite fold_parse_line_no_header by (reflexivity || exact H).
    reflexivity. }
  split; [exact Hp|]. split; [rewrite Hp; simpl; auto|].
  split; [intros r; eexists; reflexivity|].
  intros body e He. unfold guarded_parse. rewrite He. reflexivity.
Qed.

Lemma C5_no_header_raw_answer_witness :
  has_header "the figures were not given" = false
  /\ _parse_response "the figures were not given"
     = {| answer := "the figures were not given"; confidence := 50;
          reasoning := "" |}.
Proof.
  split; [vm_compute; reflexivity|].
  apply (C5_no_header_raw_answer "the figures were not given").
  vm_compute. reflexivity.
Defined.

End ParserClaims.

(* ================================================================== *)
(** ** Lemmas on the similarity search *)

Module SearchFacts.
Import Store Invariants.

Lemma Qltb_true (a b : Q) : Qltb a b = true -> (a < b)%Q.
Proof.
  unfold Qltb. intro H. apply negb_true_iff in H.
  apply Qnot_le_lt. intro Hle. apply Qle_bool_iff in Hle. congruence.
Qed.

Lemma Qltb_false (a b : Q) : Qltb a b = false -> (b <= a)%Q.
Proof.
  unfold Qltb. intro H. apply negb_false_iff in H. apply Qle_bool_iff, H.
Qed.

Lemma in_insert_desc (x y : Hit) (l : list Hit) :
  In y (insert_desc x l) <-> x = y \/ In y l.
Proof.
  induction l as [|z r IH]; simpl; [tauto|].
  destruct (Qltb (similarity z) (similarity x)); simpl; [tauto|].
  rewrite IH. tauto.
Qed.

Lemma in_sort_desc (y : Hit) (l : list Hit) : In y (sort_desc l) <-> In y l.
Proof.
  unfold sort_desc.
  assert (G : forall acc, In y (fold_left (fun acc x => insert_desc x acc) l acc)
                          <-> In y l \/ In y acc).
  { induction l as [|x l IH]; intro acc; simpl; [tauto|].
    rewrite IH, in_insert_desc. tauto. }
  rewrite G. simpl. tauto.
Qed.

Lemma insert_desc_sorted (x : Hit) (l : list Hit) :
  Sorted ge_sim l -> Sorted ge_sim (insert_desc x l).
Proof.
  induction l as [|y r IH]; intro Hs; simpl; [constructor; constructor|].
  destruct (Qltb (similarity y) (similarity x)) eqn:E.
  - constructor; [exact Hs|]. constructor. unfold ge_sim.
    apply Qlt_le_weak, Qltb_true, E.
  - apply Sorted_inv in Hs as [Hr Hh]. constructor; [apply IH, Hr|].
    apply Qltb_false in E. destruct r as [|z r']; simpl.
    + constructor. exact E.
    + destruct (Qltb (similarity z) (similarity x)).
      * constructor. exact E.
      * inversion Hh. constructor. assumption.
Qed.

Lemma sort_desc_sorted (l : list Hit) : Sorted ge_sim (sort_desc l).
Proof.
  unfold sort_desc.
  assert (G : forall acc, Sorted ge_sim acc ->
             Sorted ge_sim (fold_left (fun acc x => insert_desc x acc) l acc)).
  { induction l as [|x l IH]; intros acc Ha; simpl; [exact Ha|].
    apply IH, insert_desc_sorted, Ha. }
  apply G. constructor.
Qed.

Lemma firstn_sorted (n : nat) (l : list Hit) :
  Sorted ge_sim l -> Sorted ge_sim (firstn n l).
Proof.
  revert l. induction n as [|n IH]; intros l Hs; [constructor|].
  destruct l as [|a l]; [constructor|]. simpl.
  apply Sorted_inv in Hs as [Hl Hh]. constructor; [apply IH, Hl|].
  destruct n, l; simpl; try constructor. inversion Hh. assumption.
Qed.

Lemma in_score_candidates (qe : vec) (m : Q) (cosine : vec -> vec -> Q)
  (json_loads : string -> option vec) (cands : list Flat) (h : Hit) :
  In h (score_candidates json_loads cosine qe m cands) ->
  In (h_chunk h) cands /\ (m <= similarity h)%Q.
Proof.
  unfold score_candidates. rewrite in_flat_map. intros [ch [Hin Hh]].
  destruct (candidate_embedding json_loads ch) as [e|]; [|contradiction].
  destruct (Qle_bool m (cosine qe e)) eqn:E; [|contradiction].
  destruct Hh as [<-|[]]. simpl. split; [exact Hin|]. apply Qle_bool_iff, E.
Qed.

Lemma in_firstn {A} (n : nat) (l : list A) (x : A) :
  In x (firstn n l) -> In x l.
Proof.
  intro H. rewrite <- (firstn_skipn n l). apply in_or_app. left. exact H.
Qed.

Lemma in_py_take {A} (limit : Z) (xs : list A) (x : A) :
  In x (py_take limit xs) -> In x xs.
Proof.
  unfold py_take. destruct (0 <=? limit)%Z; apply in_firstn.
Qed.

Lemma in_search (env : Env) json_loads cosine (db : DB) (query : string)
  (limit : Z) (m : Q) (hits : list Hit) (h : Hit) :
  search_similar_chunks env json_loads cosine db query limit m = Ok hits ->
  In h hits ->
  In (h_chunk h) (get_all_chunks_with_embeddings 50 db) /\ (m <= similarity h)%Q.
Proof.
  unfold search_similar_chunks.
  destruct (_generate_embedding env query) as [qe|e]; [|discriminate].
  intros Hok Hin. injection Hok as <-.
  apply in_py_take, in_sort_desc, in_score_candidates in Hin. exact Hin.
Qed.

Lemma in_get_all_chunks (db : DB) (n : nat) (ch : Flat) :
  In ch (get_all_chunks_with_embeddings n db) ->
  In (f_row ch) (firstn n (chunks db)).
Proof.
  unfold get_all_chunks_with_embeddings. rewrite in_map_iff.
  intros [c [<- Hc]]. unfold flatten.
  destruct (find _ _); exact Hc.
Qed.

End SearchFacts.

(* ================================================================== *)
(** ** Ingestion keeps confidential documents out of the chunk table *)

Module IngestFacts.
Import Store Invariants.

Lemma extends_with_refl (pdf_id : nat) (db : DB) : extends_with pdf_id db db.
Proof. repeat split; auto. Qed.

Lemma extends_with_trans (pdf_id : nat) (a b c : DB) :
  extends_with pdf_id a b -> extends_with pdf_id b c -> extends_with pdf_id a c.
Proof.
  intros (H1 & H2 & H3 & H4) (G1 & G2 & G3 & G4).
  repeat split; [congruence|congruence| |].
  - intros x Hx. destruct (G3 x Hx) as [Hb|]; auto.
  - intros x Hx. destruct (G4 x Hx) as [Hb|]; auto.
Qed.

Lemma store_chunk_embedding_extends (pdf_id : nat) t i e (db : DB) :
  extends_with pdf_id db (store_chunk_embedding pdf_id t i e db).
Proof.
  unfold store_chunk_embedding, extends_with; simpl. repeat split; auto.
  intros c Hc. apply in_app_or in Hc as [Hc|[<-|[]]]; auto.
Qed.

Lemma store_individually_extends (env : Env) (pdf_id : nat) l (db : DB) :
  extends_with pdf_id db (fst (store_individually env pdf_id l db)).
Proof.
  revert db. induction l as [|[ch [e|]] r IH]; intro db; simpl.
  - apply extends_with_refl.
  - destruct (insert_ok env (pc_text ch)); [|apply IH].
    destruct (store_individually env pdf_id r _) as [db' n] eqn:E. simpl.
    eapply extends_with_trans; [apply store_chunk_embedding_extends|].
    specialize (IH (store_chunk_embedding pdf_id (pc_text ch) (pc_index ch) e db)).
    rewrite E in IH. exact IH.
  - apply IH.
Qed.

Lemma store_chunks_extends (env : Env) (pdf_id : nat) cs (db : DB) :
  extends_with pdf_id db (fst (store_chunks env pdf_id cs db)).
Proof.
  assert (Hlog : extends_with pdf_id db (log_embedding pdf_id db)).
  { unfold log_embedding, extends_with; simpl. repeat split; auto.
    intros x [<-|Hx]; auto. }
  unfold store_chunks.
  destruct (_ <? _); [exact Hlog|]. destruct (_ =? 0); [exact Hlog|].
  destruct (store_individually env pdf_id _ _) as [db1 n] eqn:E. simpl.
  eapply extends_with_trans; [exact Hlog|].
  match type of E with store_individually ?en ?i ?l ?d = _ =>
    pose proof (store_individually_extends en i l d) as G end.
  rewrite E in G. exact G.
Qed.

Lemma Inv_empty : Inv empty_db.
Proof. unfold Inv; simpl; repeat split; intros; contradiction. Qed.

Lemma Inv_clear (db : DB) : Inv db -> Inv (clear_all_data db).
Proof.
  intros (I1 & I2 & I3 & I4 & I5). unfold Inv, clear_all_data; simpl.
  repeat split; intros; try contradiction. apply I3; assumption.
Qed.

Lemma Inv_metadata (db : DB) fn fp conf n :
  Inv db -> Inv (snd (store_pdf_metadata fn fp conf n db))
  /\ fst (store_pdf_metadata fn fp conf n db) = next_pdf_id db.
Proof.
  intros (I1 & I2 & I3 & I4 & I5). unfold store_pdf_metadata; simpl.
  split; [|reflexivity]. unfold Inv; simpl.
  split; [intros c Hc; specialize (I1 c Hc); lia|].
  split; [intros p Hp; apply in_app_or in Hp as [Hp|[<-|[]]];
          [specialize (I2 p Hp); lia|simpl; lia]|].
  split; [intros x Hx; specialize (I3 x Hx); lia|].
  split.
  - intros c p Hc Hp Heq. apply in_app_or in Hp as [Hp|[<-|[]]].
    + exact (I4 c p Hc Hp Heq).
    + simpl in Heq. specialize (I1 c Hc). lia.
  - intros p Hp Hconf. apply in_app_or in Hp as [Hp|[<-|[]]].
    + exact (I5 p Hp Hconf).
    + simpl. intro Hx. specialize (I3 _ Hx). lia.
Qed.

Lemma Inv_store_chunks (env : Env) (pdf_id : nat) cs (db : DB) :
  Inv db -> pdf_id < next_pdf_id db ->
  (forall p, In p (pdfs db) -> p_id p = pdf_id -> p_is_confidential p = false) ->
  Inv (fst (store_chunks env pdf_id cs db)).
Proof.
  intros (I1 & I2 & I3 & I4 & I5) Hlt Hnc.
  destruct (store_chunks_extends env pdf_id cs db) as (E1 & E2 & E3 & E4).
  set (db' := fst (store_chunks env pdf_id cs db)) in *.
  unfold Inv. rewrite E1, E2. repeat split.
  - intros c Hc. destruct (E3 c Hc) as [H|H]; [apply I1, H|lia].
  - exact I2.
  - intros x Hx. destruct (E4 x Hx) as [H|H]; [apply I3, H|lia].
  - intros c p Hc Hp Heq. destruct (E3 c Hc) as [H|H].
    + exact (I4 c p H Hp Heq).
    + apply Hnc; [exact Hp|congruence].
  - intros p Hp Hconf Hx. destruct (E4 _ Hx) as [H|H].
    + exact (I5 p Hp Hconf H).
    + rewrite (Hnc p Hp H) in Hconf. discriminate.
Qed.

Lemma Inv_upload_one (env : Env) pr f conf (db : DB) :
  Inv db -> Inv (fst (upload_one env pr f conf db)).
Proof.
  intro HI. unfold upload_one.
  destruct (uf_saved f) as [fp|]; [|exact HI].
  destruct (uf_text f) as [text|]; [|exact HI].
  destruct (Chunker._split_text_into_chunks pr text) as [texts|]; [|exact HI].
  destruct (negb (pdf_insert_ok env (uf_filename f))); [exact HI|].
  destruct (store_pdf_metadata _ _ _ _ db) as [pdf_id db1] eqn:E.
  pose proof (Inv_metadata db (uf_filename f) fp conf
                (List.length (indexed_chunks texts)) HI) as [HI1 Hid].
  rewrite E in HI1, Hid. simpl in HI1, Hid.
  destruct (negb conf && negb (skip_embeddings env)) eqn:Eb; [|exact HI1].
  destruct (store_chunks env pdf_id _ db1) as [db2 r] eqn:Es. simpl.
  apply andb_true_iff in Eb as [Hconf _]. apply negb_true_iff in Hconf.
  unfold store_pdf_metadata in E. injection E as Ei Ed.
  match type of Es with store_chunks ?en ?i ?l ?d = _ =>
    pose proof (Inv_store_chunks en i l d HI1) as G end.
  rewrite Es in G. apply G.
  - subst db1 pdf_id. simpl. lia.
  - intros p Hp Heq. subst db1. simpl in Hp.
    apply in_app_or in Hp as [Hp|[<-|[]]]; [|exact Hconf].
    destruct HI as (_ & I2 & _). specialize (I2 p Hp). subst pdf_id. lia.
Qed.

Lemma Inv_upload_pdfs (env : Env) pr files (db : DB) :
  Inv db -> Inv (upload_pdfs env pr files db).
Proof.
  revert db. induction files as [|[f conf] r IH]; intros db HI; simpl;
    [exact HI|].
  apply IH, Inv_upload_one, HI.
Qed.

End IngestFacts.

(* ================================================================== *)
(** ** Claims on ingestion and similarity search *)

Module SearchClaims.
Import Store Invariants SearchFacts SearchSamples.

Lemma Inv_serve (rs : list Request) (db : DB) :
  Inv db -> Inv (serve rs db).
Proof.
  revert db. induction rs as [|[env pr files|] r IH]; intros db HI; simpl;
    [exact HI| |].
  - apply IH, IngestFacts.Inv_upload_pdfs, HI.
  - apply IH, IngestFacts.Inv_clear, HI.
Qed.

(** Claim C1: after any sequence of uploads and bulk clears, for every
    stored document flagged confidential, its chunks were never handed to
    the embedding model, no chunk row of the store belongs to it, and no
    similarity search (any query, limit, threshold, embedding model and
    similarity function) returns a chunk of it. *)
Theorem C1_confidential_never_embedded_or_returned (rs : list Request)
  (p : PdfRow) (Hp : In p (pdfs (serve rs empty_db)))
  (Hc : p_is_confidential p = true) :
  ~ In (p_id p) (embed_log (serve rs empty_db))
  /\ (forall c, In c (chunks (serve rs empty_db)) -> c_pdf_id c <> p_id p)
  /\ (forall env json_loads cosine query limit min_similarity hits,
        search_similar_chunks env json_loads cosine (serve rs empty_db) query
          limit min_similarity = Ok hits ->
        forall h, In h hits -> c_pdf_id (f_row (h_chunk h)) <> p_id p).
Proof.
  destruct (Inv_serve rs empty_db IngestFacts.Inv_empty)
    as (_ & _ & _ & I4 & I5).
  assert (Hch : forall c, In c (chunks (serve rs empty_db)) -> c_pdf_id c <> p_id p).
  { intros c Hin Heq. rewrite (I4 c p Hin Hp (eq_sym Heq)) in Hc. discriminate. }
  split; [exact (I5 p Hp Hc)|]. split; [exact Hch|].
  intros env json_loads cosine query limit m hits Hs h Hh.
  destruct (in_search env json_loads cosine _ query limit m hits h Hs Hh) as [Hg _].
  apply in_get_all_chunks, in_firstn in Hg. exact (Hch _ Hg).
Qed.

Lemma C1_confidential_never_embedded_or_returned_witness :
  In {| p_id := 0; p_filename := "memo.pdf"; p_file_path := "pdfs/memo.pdf";
        p_is_confidential := true; p_chunk_count := 5 |}
     (pdfs (serve sample_requests empty_db))
  /\ ~ In 0 (embed_log (serve sample_requests empty_db)).
Proof.
  assert (Hin : In {| p_id := 0; p_filename := "memo.pdf";
                      p_file_path := "pdfs/memo.pdf";
                      p_is_confidential := true; p_chunk_count := 5 |}
                   (pdfs (serve sample_requests empty_db))).
  { vm_compute. left. reflexivity. }
  split; [exact Hin|].
  exact (proj1 (C1_confidential_never_embedded_or_returned sample_requests _
                  Hin eq_refl)).
Defined.

(** Claim C3: for every limit [>= 0] and threshold, a search that returns
    gives at most [limit] hits, each with similarity [>= min_similarity],
    ranked by descending similarity. *)
Theorem C3_search_bounded_filtered_ranked (env : Env)
  (json_loads : string -> option vec) (cosine : vec -> vec -> Q) (db : DB)
  (query : string) (limit : Z) (min_similarity : Q) (hits : list Hit)
  (Hl : (0 <= limit)%Z)
  (H : search_similar_chunks env json_loads cosine db query limit min_similarity
       = Ok hits) :
  List.length hits <= Z.to_nat limit
  /\ (forall h, In h hits -> (min_similarity <= similarity h)%Q)
  /\ Sorted ge_sim hits.
Proof.
  split; [|split].
  - revert H. unfold search_similar_chunks.
    destruct (_generate_embedding env query); [|discriminate].
    intro H. injection H as <-. unfold py_take.
    apply Z.leb_le in Hl. rewrite Hl. apply firstn_le_length.
  - intros h Hh. exact (proj2 (in_search env json_loads cosine db query limit
                                 min_similarity hits h H Hh)).
  - revert H. unfold search_similar_chunks.
    destruct (_generate_embedding env query); [|discriminate].
    intro H. injection H as <-. unfold py_take.
    apply Z.leb_le in Hl. rewrite Hl. apply firstn_sorted, sort_desc_sorted.
Qed.

Lemma C3_search_bounded_filtered_ranked_witness :
  exists hits,
    search_similar_chunks sample_env (fun _ => None) dotQ db51 "growth" 3 10
      = Ok hits
    /\ List.length hits <= 3.
Proof.
  eexists. split; [vm_compute; reflexivity|].
  apply (C3_search_bounded_filtered_ranked sample_env (fun _ => None) dotQ db51
           "growth" 3 10); [lia|vm_compute; reflexivity].
Defined.

(** Claim C10: the candidate pool of a search is the first 50 rows the
    chunk table returns, whatever the [limit] and threshold: a hit is
    always one of those rows, so a row past the first 50 is never
    returned, however similar to the query. *)
Theorem C10_candidate_pool_first_50 (env : Env)
  (json_loads : string -> option vec) (cosine : vec -> vec -> Q) (db : DB)
  (query : string) (limit : Z) (min_similarity : Q) (hits : list Hit)
  (H : search_similar_chunks env json_loads cosine db query limit min_similarity
       = Ok hits) :
  forall h, In h hits -> In (f_row (h_chunk h)) (firstn 50 (chunks db)).
Proof.
  intros h Hh.
  destruct (in_search env json_loads cosine db query limit min_similarity hits h
              H Hh) as [Hg _].
  exact (in_get_all_chunks db 50 _ Hg).
Qed.

(** In the 51-row table the row with embedding [[50; 0]] is the most
    similar to the query embedding [[1; 0]], yet the top hit is row 49. *)
Lemma C10_candidate_pool_first_50_witness :
  exists hits,
    search_similar_chunks sample_env (fun _ => None) dotQ db51 "growth" 1 0
      = Ok hits
    /\ map (fun h => c_id (f_row (h_chunk h))) hits = [49]
    /\ ~ In (row_of 50) (firstn 50 (chunks db51))
    /\ (forall h, In h hits -> In (f_row (h_chunk h)) (firstn 50 (chunks db51))).
Proof.
  eexists. split; [vm_compute; reflexivity|].
  split; [vm_compute; reflexivity|].
  split; [vm_compute; intuition discriminate|].
  apply (C10_candidate_pool_first_50 sample_env (fun _ => None) dotQ db51
           "growth" 1 0). vm_compute. reflexivity.
Defined.

End SearchClaims.

(* ================================================================== *)
(** ** Claims on the orchestrators *)

Module OrchestratorClaims.
Import Parser Orchestrators OrchestratorSamples.

(** Claim C6: whatever confidence the consolidation provider reports
    (also above [85], or none), the consolidated confidence is at most
    [85]; when the consolidation call raises, the result is the
    per-document answers joined under ["**From <filename>:**"] headings,
    with confidence exactly [70]. *)
Theorem C6_consolidated_confidence_capped (generate : string -> Exc Reply)
  (question : string) (pdf_responses : list PdfResponse) :
  (confidence (_consolidate_responses generate question pdf_responses) <= 85)%Z
  /\ (forall e, generate (consolidation_prompt question pdf_responses) = Err e ->
        _consolidate_responses generate question pdf_responses
        = {| answer := combined_answer pdf_responses; confidence := 70;
             reasoning := "Combined responses from "
                          ++ str_nat (List.length pdf_responses)
                          ++ " PDF documents (consolidation failed)" |}).
Proof.
  unfold _consolidate_responses. split.
  - destruct (generate _) as [r|e]; simpl; lia.
  - intros e He. rewrite He. reflexivity.
Qed.

(** Claim C7 (counterexample): with a search that raises (the embedding
    model is missing), [answer_question] does not return the confidence-0
    apology: [_retrieve_relevant_chunks] swallows the exception and the
    provider answers from an empty context, here with confidence [40]. *)
Lemma C7_retrieval_error_not_reported :
  ~ (forall (qe : QueryEngine) search generate question,
       (exists e, search question (max_context_chunks qe)
                    (min_similarity_threshold qe) = Err e) ->
       exists msg, answer_question qe search generate question
                   = error_response question msg).
Proof.
  intro Hall.
  assert (He : exists e, broken_search "What was revenue?"
                           (max_context_chunks default_engine)
                           (min_similarity_threshold default_engine) = Err e).
  { eexists. vm_compute. reflexivity. }
  destruct (Hall default_engine broken_search stub_generate "What was revenue?" He)
    as [msg H].
  apply (f_equal qa_confidence) in H. vm_compute in H. discriminate H.
Qed.

(** Claim C7 (as amended): an exception raised by generation, or by
    reading the [answer] or [confidence] key of the reply, makes
    [answer_question] return the apology embedding [str(e)] with
    confidence [0], empty sources and [chunks_found] [0]; an exception
    raised by the search is absorbed by [_retrieve_relevant_chunks], and
    the answer is then exactly the one for an empty search result.
    [answer_question] is a total function: it returns a response in every
    case. *)
Theorem C7_answer_question_error_response (qe : QueryEngine)
  (search : string -> Z -> Q -> Exc (list Store.Hit))
  (generate : string -> list Store.Hit -> Exc Reply) (question : string) :
  (forall e, generate question (_retrieve_relevant_chunks qe search question) = Err e ->
     answer_question qe search generate question
     = {| qa_answer := "I apologize, but I encountered an error processing your question: " ++ e;
          qa_confidence := 0; qa_reasoning := "Error occurred during processing";
          qa_sources := []; qa_chunks_found := 0; qa_question := question |})
  /\ (forall r, generate question (_retrieve_relevant_chunks qe search question) = Ok r ->
        rp_answer r = None \/ rp_confidence r = None ->
        exists e, answer_question qe search generate question = error_response question e)
  /\ (forall e, search question (max_context_chunks qe) (min_similarity_threshold qe)
                 = Err e ->
        answer_question qe search generate question
        = answer_question qe (fun _ _ _ => Ok []) generate question).
Proof.
  split; [|split].
  - intros e He. unfold answer_question. rewrite He. reflexivity.
  - intros r Hr Hmiss. unfold answer_question. rewrite Hr.
    destruct (rp_answer r) as [a|]; [|eexists; reflexivity].
    destruct (rp_confidence r) as [c|]; [|eexists; reflexivity].
    destruct Hmiss; discriminate.
  - intros e He. unfold answer_question, _retrieve_relevant_chunks. rewrite He.
    reflexivity.
Qed.

End OrchestratorClaims.

(* ================================================================== *)
(** ** The claim on the cosine similarity *)

Module CosineClaims.
Import Cosine.
Local Open Scope float_scope.

(** Claim C9 (refuted, code bug): the value does not always lie in
    [[-1, 1]]. For [a = b = [1.0, 1.0, 1.0]] the dot product is [3.0],
    each norm is [sqrt(3.0)] rounded to [1.7320508075688772], their
    product rounds to [2.9999999999999996], and the quotient is
    [1.0000000000000002], one ulp above [1]. *)
Theorem C9_cosine_exceeds_one :
  List.length [1; 1; 1] = List.length [1; 1; 1]
  /\ dot [1; 1; 1] [1; 1; 1] = 3
  /\ norm [1; 1; 1] * norm [1; 1; 1] = 0x1.7ffffffffffffp+1
  /\ _cosine_similarity [1; 1; 1] [1; 1; 1] = 0x1.0000000000001p+0
  /\ PrimFloat.ltb 1 (_cosine_similarity [1; 1; 1] [1; 1; 1]) = true.
Proof. repeat split; vm_compute; reflexivity. Qed.

End CosineClaims.

(* ================================================================== *)
(** ** Further properties of the string primitives and the chunker *)

Module StringFacts.
Import Py.








Lemma substring_zero_len (n : nat) (s : string) : substring n 0 s = "".
Proof. revert n. induction s; intros [|n]; simpl; auto. Qed.

Lemma strip_empty : strip "" = "".
Proof. reflexivity. Qed.

End StringFacts.

Module ChunkerMore.
Import Chunker.

(** A sentence boundary found in a non-empty window lies inside it. *)
Lemma sentence_boundary_gt (text : string) (start end_ : nat) :
  start < end_ -> start < _find_sentence_boundary text start end_.
Proof.
  intros H. unfold _find_sentence_boundary.
  match goal with |- context [if (?a <? ?b)%Z then _ else _] =>
    destruct (a <? b)%Z eqn:E end; [|exact H].
  apply Z.ltb_lt in E. lia.
Qed.

Section Loop.
Variable p : PDFProcessor.
Variable text : string.

Lemma split_loop_shape (f start : nat) (l : list Span) :
  split_loop p text f start = Some l ->
  forall x, In x l ->
    start <= sp_start x /\ sp_end x = chunk_end p text (sp_start x)
    /\ sp_chunk x = Py.strip (Py.slice text (sp_start x) (sp_end x)).
Proof.
  revert start l. induction f as [|f IH]; intros start l H; [discriminate|].
  simpl in H.
  destruct (start <? String.length text); [|injection H as <-; contradiction].
  set (e := chunk_end p text start) in H.
  set (chunk := Py.strip (Py.slice text start e)) in H.
  assert (Hem : forall x,
             In x (if String.eqb chunk "" then []
                   else [{| sp_start := start; sp_end := e; sp_chunk := chunk |}]) ->
             start <= sp_start x /\ sp_end x = chunk_end p text (sp_start x)
             /\ sp_chunk x = Py.strip (Py.slice text (sp_start x) (sp_end x))).
  { intros x Hx. destruct (String.eqb chunk ""); [contradiction|].
    destruct Hx as [<-|[]]. simpl. auto. }
  destruct (_ <=? _); [injection H as <-; exact Hem|].
  destruct (split_loop p text f _) as [r|] eqn:Er; [|discriminate].
  injection H as <-. intros x Hx. apply in_app_or in Hx as [Hx|Hx].
  - exact (Hem x Hx).
  - destruct (IH _ r Er x Hx) as [H1 H2]. split; [lia|exact H2].
Qed.


End Loop.

End ChunkerMore.

Module ExtraChunker.
Import Chunker.

Lemma split_spans_some (p : PDFProcessor) (text : string) :
  exists l, split_spans p text = Some l
            /\ (String.eqb text "" = false ->
                split_loop p text (String.length text) 0 = Some l).
Proof.
  unfold split_spans. destruct (String.eqb text "") eqn:Et.
  - exists []. split; [reflexivity|discriminate].
  - assert (Hn : 0 < String.length text) by (destruct text; [discriminate|simpl; lia]).
    destruct (ChunkerLoop.split_loop_some p text (String.length text) 0 Hn
                ltac:(lia)) as [l Hl].
    exists l. rewrite Hl. auto.
Qed.




(** With [chunk_size = 0] every window is empty, so no text gives any
    chunk. *)
Theorem zero_chunk_size_no_chunks (p : PDFProcessor) (text : string)
  (Hzero : chunk_size p = 0) :
  _split_text_into_chunks p text = Some [].
Proof.
  destruct (split_spans_some p text) as [l [Hs Hl]].
  unfold _split_text_into_chunks. rewrite Hs.
  destruct l as [|x l]; [reflexivity|exfalso].
  unfold split_spans in Hs. destruct (String.eqb text "") eqn:Et; [discriminate|].
  specialize (Hl eq_refl).
  destruct (ChunkerMore.split_loop_shape p text _ _ _ Hl x (or_introl eq_refl))
    as [_ [He Hc]].
  destruct (ChunkerLoop.split_loop_chunks p text _ _ _ Hl x (or_introl eq_refl))
    as [_ Hne].
  pose proof (ChunkerFacts.chunk_end_le p text (sp_start x)).
  apply Hne. rewrite Hc. unfold Py.slice.
  replace (sp_end x - sp_start x) with 0 by lia.
  rewrite StringFacts.substring_zero_len. reflexivity.
Qed.

Lemma zero_chunk_size_no_chunks_witness :
  chunk_size {| chunk_size := 0; chunk_overlap := 3 |} = 0
  /\ _split_text_into_chunks {| chunk_size := 0; chunk_overlap := 3 |}
       "Net income rose. Costs fell." = Some [].
Proof.
  split; [reflexivity|].
  exact (zero_chunk_size_no_chunks {| chunk_size := 0; chunk_overlap := 3 |}
           "Net income rose. Costs fell." eq_refl).
Defined.

(** For a positive [chunk_size] the word-boundary fallback is never used:
    a chunk ends at the sentence boundary [_find_sentence_boundary]
    returns (which is past the chunk's start), or at [start + chunk_size]
    when that reaches the end of the text. *)
Theorem word_boundary_unused (p : PDFProcessor) (text : string) (start : nat)
  (Hpos : 0 < chunk_size p) :
  chunk_end p text start
  = (if start + chunk_size p <? String.length text
     then _find_sentence_boundary text start (start + chunk_size p)
     else start + chunk_size p)
  /\ start < chunk_end p text start.
Proof.
  unfold chunk_end.
  destruct (start + chunk_size p <? String.length text); [|split; [reflexivity|lia]].
  pose proof (ChunkerMore.sentence_boundary_gt text start (start + chunk_size p)
                ltac:(lia)) as Hg.
  apply Nat.ltb_lt in Hg as Hg'. rewrite Hg'. auto.
Qed.

Lemma word_boundary_unused_witness :
  0 < chunk_size {| chunk_size := 8; chunk_overlap := 2 |}
  /\ chunk_end {| chunk_size := 8; chunk_overlap := 2 |} "one two three four" 0
     = _find_sentence_boundary "one two three four" 0 8.
Proof.
  split; [simpl; lia|].
  exact (proj1 (word_boundary_unused {| chunk_size := 8; chunk_overlap := 2 |}
                  "one two three four" 0 ltac:(simpl; lia))).
Defined.

End ExtraChunker.

(* ================================================================== *)
(** ** Further properties of the response parsers *)

Module ParserMore.
Import Py.

Definition no_char (c : ascii) (s : string) : Prop :=
  ~ In c (list_ascii_of_string s).

Lemma prefix_app_contains (a b s : string) :
  String.prefix (a ++ b) s = true -> contains s b = true.
Proof.
  revert s. induction a as [|c a IH]; intros s H; simpl in H.
  - destruct s; cbn [contains]; rewrite H; reflexivity.
  - destruct s as [|d s]; [discriminate|]. simpl in H.
    destruct (Ascii.ascii_dec c d); [|discriminate].
    cbn [contains]. rewrite (IH s H). apply orb_true_r.
Qed.

(** A string containing [a ++ b] contains [b]. *)
Lemma contains_app_r (a b s : string) :
  contains s (a ++ b) = true -> contains s b = true.
Proof.
  induction s as [|c s IH]; intros H; simpl in H.
  - apply orb_true_iff in H as [H|H]; [|discriminate].
    apply (prefix_app_contains a b ""). exact H.
  - apply orb_true_iff in H as [H|H].
    + apply (prefix_app_contains a b (String c s)). exact H.
    + cbn [contains]. rewrite (IH H). apply orb_true_r.
Qed.

Lemma split_char_no_sep (sep : ascii) (s : string) :
  forall w, In w (split_char sep s) -> no_char sep w.
Proof.
  induction s as [|c s IH]; simpl; intros w Hw.
  - destruct Hw as [<-|[]]. intros [].
  - destruct (Ascii.eqb c sep) eqn:E.
    + destruct Hw as [<-|Hw]; [intros []|exact (IH w Hw)].
    + destruct (split_char sep s) as [|x ws] eqn:Es.
      * destruct Hw as [<-|[]]. simpl. intros [H|[]].
        subst. rewrite Ascii.eqb_refl in E. discriminate.
      * destruct Hw as [<-|Hw].
        -- simpl. intros [H|H].
           ++ subst. rewrite Ascii.eqb_refl in E. discriminate.
           ++ exact (IH x (or_introl eq_refl) H).
        -- exact (IH w (or_intror Hw)).
Qed.

Lemma split_char_single (sep : ascii) (s : string) :
  no_char sep s -> split_char sep s = [s].
Proof.
  induction s as [|c s IH]; intros H; simpl; [reflexivity|].
  unfold no_char in H. simpl in H.
  destruct (Ascii.eqb c sep) eqn:E.
  - apply Ascii.eqb_eq in E. subst. exfalso. apply H. left. reflexivity.
  - rewrite IH; [reflexivity|]. intro Hin. apply H. right. exact Hin.
Qed.

Lemma split_char_app (sep : ascii) (x t : string) :
  no_char sep x -> split_char sep (x ++ String sep t) = x :: split_char sep t.
Proof.
  induction x as [|c x IH]; intros H; simpl.
  - rewrite Ascii.eqb_refl. reflexivity.
  - unfold no_char in H. simpl in H.
    destruct (Ascii.eqb c sep) eqn:E.
    + apply Ascii.eqb_eq in E. subst. exfalso. apply H. left. reflexivity.
    + rewrite IH; [reflexivity|]. intro Hin. apply H. right. exact Hin.
Qed.

(** Splitting a join at the separator gives back the parts. *)
Lemma split_join (sep : ascii) (ls : list string) :
  ls <> [] -> (forall x, In x ls -> no_char sep x) ->
  split_char sep (join (String sep "") ls) = ls.
Proof.
  induction ls as [|x r IH]; intros Hne H; [congruence|].
  destruct r as [|y r].
  - simpl. apply split_char_single, H. left. reflexivity.
  - change (join (String sep "") (x :: y :: r))
      with (x ++ String sep (join (String sep "") (y :: r))).
    rewrite split_char_app by (apply H; left; reflexivity).
    rewrite IH; [reflexivity|discriminate|].
    intros z Hz. apply H. right. exact Hz.
Qed.

Lemma In_lstrip_l (c : ascii) (l : list ascii) : In c (lstrip_l l) -> In c l.
Proof.
  induction l as [|d l IH]; simpl; [auto|].
  destruct (is_space d); simpl; intuition.
Qed.

Lemma In_rstrip_l (c : ascii) (l : list ascii) : In c (rstrip_l l) -> In c l.
Proof.
  induction l as [|d l IH]; simpl; [auto|].
  intros H. destruct (rstrip_l l) as [|x y] eqn:E.
  - destruct (is_space d); simpl in H; [contradiction|].
    destruct H as [H|[]]. left. exact H.
  - destruct H as [H|H]; [left; exact H|right; apply IH; exact H].
Qed.

Lemma strip_no_char (sep : ascii) (s : string) : no_char sep s -> no_char sep (strip s).
Proof.
  unfold no_char, strip. rewrite list_ascii_of_string_of_list_ascii.
  intros H Hin. apply H. apply In_rstrip_l, In_lstrip_l. exact Hin.
Qed.

Lemma join_nonempty (sep : string) (ls : list string) :
  (forall x, In x ls -> x <> "") -> join sep ls = "" -> ls = [].
Proof.
  destruct ls as [|x r]; intros H Hj; [reflexivity|exfalso].
  apply (H x (or_introl eq_refl)).
  destruct r as [|y r]; [exact Hj|].
  simpl in Hj. destruct x; [reflexivity|discriminate].
Qed.

Lemma strip_strip_nonempty (s : string) :
  String.eqb (strip s) "" = false -> String.eqb (strip (strip s)) "" = false.
Proof. rewrite PyFacts.strip_idem. auto. Qed.

Lemma parse_line_confidence (st : Parser.ParseState) (l : string) :
  (0 <= Parser.confidence (Parser.ps_parsed st) <= 100)%Z ->
  (0 <= Parser.confidence (Parser.ps_parsed (Parser.parse_line st l)) <= 100)%Z.
Proof.
  intros H. unfold Parser.parse_line.
  assert (He : forall t, (0 <= Parser._extract_confidence_score t <= 100)%Z).
  { intros t. unfold Parser._extract_confidence_score.
    destruct (first_number t); [lia|].
    repeat match goal with |- context [if ?b then _ else _] => destruct b end; lia. }
  repeat match goal with
         | |- context [if ?b then _ else _] => destruct b
         | |- context [match Parser.ps_section ?s with _ => _ end] =>
             destruct (Parser.ps_section s)
         end; simpl; auto.
Qed.

Lemma fold_parse_line_confidence (ls : list string) (st : Parser.ParseState) :
  (0 <= Parser.confidence (Parser.ps_parsed st) <= 100)%Z ->
  (0 <= Parser.confidence (Parser.ps_parsed (fold_left Parser.parse_line ls st)) <= 100)%Z.
Proof.
  revert st. induction ls as [|l ls IH]; intros st H; simpl; [exact H|].
  apply IH, parse_line_confidence, H.
Qed.

End ParserMore.

Module ExtraParser.
Import Parser ParserMore.

(** [_extract_confidence_score] always returns a score in [[0, 100]]. *)
Theorem extract_confidence_in_range (confidence_text : string) :
  (0 <= _extract_confidence_score confidence_text <= 100)%Z.
Proof.
  unfold _extract_confidence_score.
  destruct (Py.first_number confidence_text); [lia|].
  repeat match goal with |- context [if ?b then _ else _] => destruct b end; lia.
Qed.

(** A confidence text without digits that says ["uncertain"] (in any
    letter case) scores [85], the score of ["high"]: the keyword
    ["certain"] of the high group is found inside it first. *)
Theorem uncertain_scores_high (confidence_text : string)
  (Hnodigit : Py.first_number confidence_text = None)
  (Hunc : Py.contains (Py.lower confidence_text) "uncertain" = true) :
  _extract_confidence_score confidence_text = 85%Z.
Proof.
  unfold _extract_confidence_score. rewrite Hnodigit.
  assert (Hc : Py.contains (Py.lower confidence_text) "certain" = true)
    by exact (contains_app_r "un" "certain" _ Hunc).
  simpl existsb. rewrite Hc, !orb_true_r. reflexivity.
Qed.

Lemma uncertain_scores_high_witness :
  Py.first_number "Uncertain" = None
  /\ Py.contains (Py.lower "Uncertain") "uncertain" = true
  /\ _extract_confidence_score "Uncertain" = 85%Z.
Proof.
  split; [reflexivity|]. split; [reflexivity|].
  exact (uncertain_scores_high "Uncertain" eq_refl eq_refl).
Defined.

(** Whatever the reply, the parsed confidence lies in [[0, 100]], and the
    parsed answer is empty only when the reply itself is. *)
Theorem parse_response_confidence_answer (response_text : string) :
  (0 <= confidence (_parse_response response_text) <= 100)%Z
  /\ (response_text <> "" -> answer (_parse_response response_text) <> "").
Proof.
  unfold _parse_response, guarded_parse, parse_body. simpl. split.
  - apply fold_parse_line_confidence. simpl. lia.
  - intros Hr. match goal with |- context [if String.eqb ?a "" then _ else _] =>
      destruct (String.eqb a "") eqn:E end; [exact Hr|].
    intro Ha. rewrite Ha in E. discriminate.
Qed.

(** [_clean_answer_text] is idempotent: cleaning a cleaned answer changes
    nothing (its lines are already stripped and none is blank). *)
Theorem clean_answer_text_idempotent (a : string) :
  _clean_answer_text (_clean_answer_text a) = _clean_answer_text a.
Proof.
  destruct (String.eqb a "") eqn:Ea.
  { apply String.eqb_eq in Ea. subst a. reflexivity. }
  set (L := filter (fun l => negb (String.eqb (Py.strip l) ""))
              (Py.split_char (ascii_of_nat 10) a)).
  set (M := map Py.strip L).
  assert (Hc : _clean_answer_text a = Py.join nl M)
    by (unfold _clean_answer_text; rewrite Ea; reflexivity).
  rewrite Hc.
  assert (HM : forall m, In m M -> Py.strip m = m /\ m <> ""
                                  /\ no_char (ascii_of_nat 10) m).
  { intros m Hm. unfold M in Hm. apply in_map_iff in Hm as [l [<- Hl]].
    unfold L in Hl. apply filter_In in Hl as [Hl Hne].
    apply negb_true_iff in Hne. split; [apply PyFacts.strip_idem|]. split.
    - intro Hs. rewrite Hs in Hne. discriminate.
    - apply strip_no_char, (split_char_no_sep _ a l Hl). }
  unfold _clean_answer_text.
  destruct (String.eqb (Py.join nl M) "") eqn:Ej; [apply String.eqb_eq in Ej; symmetry; exact Ej|].
  destruct M as [|m M'] eqn:EM; [discriminate|].
  rewrite <- EM in *.
  unfold nl. rewrite split_join; [|rewrite EM; discriminate|intros x Hx; apply (HM x Hx)].
  f_equal.
  assert (Hf : filter (fun l => negb (String.eqb (Py.strip l) "")) M = M).
  { apply forallb_filter_id. apply forallb_forall. intros x Hx.
    destruct (HM x Hx) as [Hs [Hne _]]. rewrite Hs.
    destruct (String.eqb x "") eqn:Ex; [apply String.eqb_eq in Ex; contradiction|reflexivity]. }
  rewrite Hf. rewrite map_ext_in with (g := fun x => x); [apply map_id|].
  intros x Hx. apply (HM x Hx).
Qed.

(** The OpenRouter parser always reports a confidence in [[0, 100]] and
    a non-empty reasoning, and its answer is empty only when the stripped
    reply is. *)
Theorem openrouter_parse_in_range (response_text : string) :
  (0 <= confidence (OpenRouter._parse_response response_text) <= 100)%Z
  /\ reasoning (OpenRouter._parse_response response_text) <> ""
  /\ (Py.strip response_text <> "" ->
      answer (OpenRouter._parse_response response_text) <> "").
Proof.
  unfold OpenRouter._parse_response. simpl. split; [|split].
  - repeat match goal with
           | |- context [match ?x with Some _ => _ | None => _ end] => destruct x
           end; lia.
  - repeat match goal with
           | |- context [match ?x with Some _ => _ | None => _ end] => destruct x
           | |- context [if String.eqb ?r "" then _ else _] =>
               destruct (String.eqb r "") eqn:?
           end; try discriminate;
    try (intro Hr; subst; match goal with H : String.eqb "" "" = false |- _ =>
                                  discriminate H end).
  - intros Hs. repeat match goal with
           | |- context [match ?x with Some _ => _ | None => _ end] => destruct x
           | |- context [if String.eqb ?r "" then _ else _] =>
               destruct (String.eqb r "") eqn:?
           end; try exact Hs.
    intro Ha; subst; match goal with H : String.eqb "" "" = false |- _ =>
                                  discriminate H end.
Qed.

End ExtraParser.


(* ================================================================== *)
(** ** Further properties of the store *)

Module ExtraStore.
Import Store Invariants.
Local Open Scope list_scope.

Lemma store_individually_added (env : Env) (pdf_id : nat)
  (l : list (PChunk * option vec)) (db db' : DB) (n : nat) :
  store_individually env pdf_id l db = (db', n) ->
  exists added, chunks db' = chunks db ++ added /\ List.length added = n
    /\ forall c, In c added ->
         c_pdf_id c = pdf_id
         /\ exists ch e, In (ch, Some e) l /\ c_chunk_text c = pc_text ch
                         /\ c_chunk_index c = pc_index ch
                         /\ c_embedding c = Some (EmbList e).
Proof.
  revert db db' n. induction l as [|[ch [e|]] r IH]; intros db db' n H; simpl in H.
  - injection H as <- <-. exists []. rewrite app_nil_r. simpl.
    split; [reflexivity|]. split; [reflexivity|]. intros c [].
  - destruct (insert_ok env (pc_text ch)).
    + destruct (store_individually env pdf_id r _) as [d m] eqn:E.
      injection H as <- <-.
      destruct (IH _ _ _ E) as [added [Ha [Hl Hc]]].
      exists ({| c_id := next_chunk_id db; c_pdf_id := pdf_id;
                 c_chunk_text := pc_text ch; c_chunk_index := pc_index ch;
                 c_embedding := Some (EmbList e) |} :: added).
      split; [rewrite Ha; simpl; rewrite <- app_assoc; reflexivity|].
      split; [simpl; lia|].
      intros c [<-|Hin].
      * simpl. split; [reflexivity|]. exists ch, e. split; [left; reflexivity|auto].
      * destruct (Hc c Hin) as [Hp [ch' [e' [Hi Hrest]]]].
        split; [exact Hp|]. exists ch', e'. split; [right; exact Hi|exact Hrest].
    + destruct (IH _ _ _ H) as [added [Ha [Hl Hc]]].
      exists added. split; [exact Ha|]. split; [exact Hl|].
      intros c Hin. destruct (Hc c Hin) as [Hp [ch' [e' [Hi Hrest]]]].
      split; [exact Hp|]. exists ch', e'. split; [right; exact Hi|exact Hrest].
  - destruct (IH _ _ _ H) as [added [Ha [Hl Hc]]].
    exists added. split; [exact Ha|]. split; [exact Hl|].
    intros c Hin. destruct (Hc c Hin) as [Hp [ch' [e' [Hi Hrest]]]].
    split; [exact Hp|]. exists ch', e'. split; [right; exact Hi|exact Hrest].
Qed.

(** [store_chunks] adds no chunk row when it raises; when it returns, it
    has added at least one row, and every added row belongs to [pdf_id]
    and carries the text, index and computed embedding of one of the
    given chunks. *)
Theorem store_chunks_all_or_nothing (env : Env) (pdf_id : nat) (cs : list PChunk)
  (db : DB) :
  match store_chunks env pdf_id cs db with
  | (db', Err _) => chunks db' = chunks db
  | (db', Ok _) =>
      exists added, chunks db' = chunks db ++ added /\ added <> []
        /\ forall c, In c added ->
             c_pdf_id c = pdf_id
             /\ exists ch e, In ch cs /\ c_chunk_text c = pc_text ch
                             /\ c_chunk_index c = pc_index ch
                             /\ c_embedding c = Some (EmbList e)
  end.
Proof.
  unfold store_chunks.
  destruct (_ <? _); [reflexivity|]. destruct (_ =? 0); [reflexivity|].
  destruct (store_individually env pdf_id _ _) as [db1 n] eqn:E.
  destruct (store_individually_added _ _ _ _ _ _ E) as [added [Ha [Hl Hc]]].
  destruct (n =? 0) eqn:En.
  - apply Nat.eqb_eq in En. subst n. destruct added; [|discriminate].
    rewrite Ha, app_nil_r. reflexivity.
  - exists added. split; [exact Ha|]. split.
    + intros ->. simpl in Hl. subst n. discriminate.
    + intros c Hin. destruct (Hc c Hin) as [Hp [ch [e [Hi Hrest]]]].
      split; [exact Hp|]. exists ch, e. split; [|exact Hrest].
      eapply in_combine_l. exact Hi.
Qed.

Lemma indexed_chunks_length (texts : list string) :
  List.length (indexed_chunks texts) = List.length texts.
Proof.
  unfold indexed_chunks. rewrite length_map, length_combine, length_seq. lia.
Qed.

(** In every state the requests can reach, [get_pdf_by_id] finds the
    row [store_pdf_metadata] has just inserted under the id it returned. *)
Theorem get_pdf_by_id_after_store (rs : list Request) (filename file_path : string)
  (is_confidential : bool) (chunk_count : nat) :
  let db := serve rs empty_db in
  let (pdf_id, db') := store_pdf_metadata filename file_path is_confidential
                         chunk_count db in
  Database.get_pdf_by_id pdf_id db'
  = Some {| p_id := pdf_id; p_filename := filename; p_file_path := file_path;
            p_is_confidential := is_confidential; p_chunk_count := chunk_count |}.
Proof.
  simpl.
  destruct (SearchClaims.Inv_serve rs empty_db IngestFacts.Inv_empty)
    as (_ & I2 & _).
  set (db := serve rs empty_db) in *.
  unfold Database.get_pdf_by_id. simpl. rewrite filter_app.
  replace (filter (fun p => Nat.eqb (p_id p) (next_pdf_id db)) (pdfs db)) with (@nil PdfRow).
  - simpl. rewrite Nat.eqb_refl. reflexivity.
  - symmetry. induction (pdfs db) as [|x r IH]; [reflexivity|]. simpl.
    replace (Nat.eqb (p_id x) (next_pdf_id db)) with false.
    + apply IH. intros y Hy. apply I2. right. exact Hy.
    + symmetry. apply Nat.eqb_neq. specialize (I2 x (or_introl eq_refl)). lia.
Qed.

(** After [clear_all_data], no chunk row and no document is returned, and
    a search finds nothing (or raises, when the query cannot be
    embedded). *)
Theorem clear_all_data_empty (env : Env) json_loads cosine (db : DB)
  (limit : nat) (pdf_id : nat) (query : string) (lim : Z) (min_similarity : Q) :
  get_all_chunks_with_embeddings limit (clear_all_data db) = []
  /\ Database.get_pdf_by_id pdf_id (clear_all_data db) = None
  /\ (search_similar_chunks env json_loads cosine (clear_all_data db) query lim
        min_similarity = Ok []
      \/ exists e, search_similar_chunks env json_loads cosine (clear_all_data db)
                     query lim min_similarity = Err e).
Proof.
  split; [unfold get_all_chunks_with_embeddings; simpl; destruct limit; reflexivity|].
  split; [reflexivity|].
  unfold search_similar_chunks.
  destruct (_generate_embedding env query) as [q|e]; [left|right; eauto].
  unfold get_all_chunks_with_embeddings. simpl. unfold py_take.
  destruct (0 <=? lim)%Z; simpl; destruct (Z.to_nat lim); reflexivity.
Qed.

End ExtraStore.

(* ================================================================== *)
(** ** Substring facts on concatenations *)

Module StringMore.
Import Py.

Lemma sappend_assoc (a b c : string) : ((a ++ b) ++ c = a ++ (b ++ c))%string.
Proof. induction a as [|x a IH]; simpl; [reflexivity|rewrite IH; reflexivity]. Qed.

Lemma sappend_nil_r (a : string) : (a ++ "")%string = a.
Proof. induction a as [|x a IH]; simpl; [reflexivity|rewrite IH; reflexivity]. Qed.

Lemma prefix_app_self (s t : string) : String.prefix s (s ++ t) = true.
Proof.
  induction s as [|c s IH]; [destruct t; reflexivity|].
  simpl. destruct (Ascii.ascii_dec c c); [exact IH|contradiction].
Qed.

Lemma prefix_app_l (x a t : string) :
  String.prefix x a = true -> String.prefix x (a ++ t) = true.
Proof.
  revert a. induction x as [|c x IH]; intros a H; [destruct (a ++ t); reflexivity|].
  destruct a as [|d a]; [discriminate|]. simpl in *.
  destruct (Ascii.ascii_dec c d); [apply IH, H|discriminate].
Qed.

Lemma contains_of_prefix (s x : string) :
  String.prefix x s = true -> contains s x = true.
Proof. intros H. destruct s; cbn [contains]; rewrite H; reflexivity. Qed.

Lemma contains_empty (s : string) : contains s "" = true.
Proof. apply contains_of_prefix. destruct s; reflexivity. Qed.

(** A string contains each of its prefixes. *)
Lemma contains_app_prefix (x t : string) : contains (x ++ t) x = true.
Proof. apply contains_of_prefix, prefix_app_self. Qed.

Lemma contains_app_prefix_assoc (x y t : string) :
  contains (x ++ (y ++ t)) (x ++ y) = true.
Proof. rewrite <- sappend_assoc. apply contains_app_prefix. Qed.

(** Appending on the left keeps an occurrence. *)
Lemma contains_app_l (a t x : string) :
  contains t x = true -> contains (a ++ t) x = true.
Proof.
  induction a as [|c a IH]; intros H; simpl; [exact H|].
  cbn [contains]. rewrite (IH H). apply orb_true_r.
Qed.

(** Appending on the right keeps an occurrence. *)
Lemma contains_app_r' (a t x : string) :
  contains a x = true -> contains (a ++ t) x = true.
Proof.
  induction a as [|c a IH]; intros H.
  - cbn [contains] in H. rewrite orb_false_r in H.
    destruct x; [apply contains_empty|discriminate].
  - cbn [contains] in H. apply orb_true_iff in H as [H|H].
    + apply contains_of_prefix, prefix_app_l, H.
    + simpl. cbn [contains]. rewrite (IH H). apply orb_true_r.
Qed.

Lemma contains_refl (s : string) : contains s s = true.
Proof.
  pose proof (prefix_app_self s "") as Hp. rewrite sappend_nil_r in Hp.
  exact (contains_of_prefix _ _ Hp).
Qed.

(** [sep.join(xs)] contains what any element of [xs] contains. *)
Lemma contains_join_sub (sep : string) (xs : list string) (x y : string) :
  In x xs -> contains x y = true -> contains (join sep xs) y = true.
Proof.
  induction xs as [|z [|w r] IH]; intros Hin Hy; [destruct Hin| |].
  - destruct Hin as [<-|[]]. exact Hy.
  - destruct Hin as [<-|Hin].
    + cbn [join]. apply contains_app_r', Hy.
    + cbn [join]. apply contains_app_l, contains_app_l, IH; assumption.
Qed.

End StringMore.

Module ProviderFacts.
Import Parser ParserMore.

Lemma parse_response_confidence (t : string) :
  (0 <= confidence (_parse_response t) <= 100)%Z.
Proof.
  unfold _parse_response, guarded_parse, parse_body. simpl.
  apply fold_parse_line_confidence. simpl. lia.
Qed.

Lemma parse_response_answer (t : string) :
  t <> "" -> answer (_parse_response t) <> "".
Proof.
  unfold _parse_response, guarded_parse, parse_body. simpl. intros Hr.
  match goal with |- context [if String.eqb ?a "" then _ else _] =>
    destruct (String.eqb a "") eqn:E end; [exact Hr|].
  intro Ha. rewrite Ha in E. discriminate.
Qed.

End ProviderFacts.

Module ExtraProviders.
Import Parser Orchestrators Providers StringMore.

Lemma document_entries_contains (fmt2 : Q -> string) (i : nat)
  (chunks : list Store.Hit) (c : Store.Hit) :
  In c chunks ->
  Py.contains (document_entries fmt2 i chunks)
    (Store.c_chunk_text (Store.f_row (Store.h_chunk c))) = true.
Proof.
  revert i. induction chunks as [|c0 r IH]; intros i Hin; [destruct Hin|].
  cbn [document_entries]. destruct Hin as [<-|Hin].
  - apply contains_app_r'. unfold document_entry.
    do 8 apply contains_app_l. apply contains_app_prefix.
  - apply contains_app_l, IH, Hin.
Qed.

(** The prompt [_build_prompt] sends to the model contains the line
    ["QUESTION: " + question], the full text of every retrieved chunk,
    and, when nothing was retrieved, the notice that no relevant
    documents were found. *)
Theorem build_prompt_contents (fmt2 : Q -> string) (question : string)
  (context_chunks : list Store.Hit) :
  Py.contains (_build_prompt fmt2 question context_chunks)
    ("QUESTION: " ++ question) = true
  /\ (forall c, In c context_chunks ->
      Py.contains (_build_prompt fmt2 question context_chunks)
        (Store.c_chunk_text (Store.f_row (Store.h_chunk c))) = true)
  /\ Py.contains (_build_prompt fmt2 question [])
       "CONTEXT: No relevant documents found." = true.
Proof.
  unfold _build_prompt. cbv beta zeta. split; [|split].
  - do 3 apply contains_app_l. apply contains_app_prefix_assoc.
  - intros c Hin. destruct context_chunks as [|c0 r]; [destruct Hin|].
    cbv iota. apply contains_app_r'. do 3 apply contains_app_l.
    apply document_entries_contains, Hin.
  - cbv iota. apply contains_app_r', contains_app_prefix.
Qed.

(** With the Claude interface as generator, [answer_question] reports a
    confidence in [[0, 100]] whatever happens, and its answer is empty
    only when the model replied with the empty text. *)
Theorem claude_answer_question_confidence (qe : QueryEngine)
  (search : string -> Z -> Q -> Exc (list Store.Hit)) (fmt2 : Q -> string)
  (api_key_set : bool) (messages_create : string -> Exc string)
  (question : string) :
  let r := answer_question qe search
             (generate_answer fmt2 api_key_set messages_create) question in
  (0 <= qa_confidence r <= 100)%Z
  /\ (qa_answer r = "" ->
      messages_create (_build_prompt fmt2 question
                         (_retrieve_relevant_chunks qe search question)) = Ok "").
Proof.
  cbv zeta. unfold answer_question, generate_answer.
  destruct api_key_set; cbn [negb].
  2: { split; [simpl; lia|]. unfold error_response. cbn [qa_answer].
       intro H. simpl in H. discriminate H. }
  destruct (messages_create _) as [t|e] eqn:Em.
  2: { split; [simpl; lia|]. unfold error_response. cbn [qa_answer].
       intro H. simpl in H. discriminate H. }
  cbn [rp_answer rp_confidence qa_confidence qa_answer]. split.
  - apply ProviderFacts.parse_response_confidence.
  - intros Ha. destruct (string_dec t "") as [->|Hne]; [reflexivity|].
    exfalso. exact (ProviderFacts.parse_response_answer t Hne Ha).
Qed.

(** Without [ANTHROPIC_API_KEY], [answer_question] over the Claude
    interface never calls the model and returns the error response with
    the key's message, confidence [0] and no sources. *)
Theorem claude_answer_question_no_key (qe : QueryEngine)
  (search : string -> Z -> Q -> Exc (list Store.Hit)) (fmt2 : Q -> string)
  (messages_create : string -> Exc string) (question : string) :
  answer_question qe search (generate_answer fmt2 false messages_create) question
  = error_response question "ANTHROPIC_API_KEY must be set in environment variables".
Proof. reflexivity. Qed.

(** Consolidating with the Claude interface gives a confidence in
    [[0, 85]]: the model's parsed score is capped at [85], and the
    fallback when the call fails is [70]. *)
Theorem claude_consolidation_confidence (fmt2 : Q -> string)
  (api_key_set : bool) (messages_create : string -> Exc string)
  (question : string) (pdf_responses : list PdfResponse) :
  (0 <= confidence (_consolidate_responses
                      (fun p => generate_answer fmt2 api_key_set messages_create p [])
                      question pdf_responses) <= 85)%Z.
Proof.
  unfold _consolidate_responses, generate_answer.
  destruct api_key_set; cbn [negb]; [|simpl; lia].
  destruct (messages_create _) as [t|e]; [|simpl; lia].
  cbn [confidence rp_confidence].
  pose proof (ProviderFacts.parse_response_confidence t). lia.
Qed.

(** Whether or not the consolidation call succeeds, the consolidated
    answer contains the answer of every individual PDF. *)
Theorem consolidate_keeps_individual_answers (generate : string -> Exc Reply)
  (question : string) (pdf_responses : list PdfResponse) (r : PdfResponse)
  (Hin : In r pdf_responses) :
  Py.contains (answer (_consolidate_responses generate question pdf_responses))
    (pr_answer r) = true.
Proof.
  unfold _consolidate_responses.
  destruct (generate _) as [resp|e]; cbn [answer].
  - do 9 apply contains_app_l. unfold responses_text.
    apply (contains_join_sub _ _ ("=== " ++ pr_filename r ++ " ===" ++ nl ++ pr_answer r)).
    + apply in_map_iff. exists r. split; [reflexivity|exact Hin].
    + do 4 apply contains_app_l. apply contains_refl.
  - unfold combined_answer.
    apply (contains_join_sub _ _ ("**From " ++ pr_filename r ++ ":**" ++ nl ++ pr_answer r)).
    + apply in_map_iff. exists r. split; [reflexivity|exact Hin].
    + do 4 apply contains_app_l. apply contains_refl.
Qed.

Lemma consolidate_keeps_individual_answers_witness :
  In {| pr_filename := "q1.pdf"; pr_answer := "Revenue grew." |}
     [{| pr_filename := "q1.pdf"; pr_answer := "Revenue grew." |}]
  /\ Py.contains
       (answer (_consolidate_responses (fun _ => Err "timeout") "Growth?"
                  [{| pr_filename := "q1.pdf"; pr_answer := "Revenue grew." |}]))
       "Revenue grew." = true.
Proof.
  split; [left; reflexivity|].
  exact (consolidate_keeps_individual_answers (fun _ => Err "timeout") "Growth?"
           [{| pr_filename := "q1.pdf"; pr_answer := "Revenue grew." |}]
           {| pr_filename := "q1.pdf"; pr_answer := "Revenue grew." |}
           (or_introl eq_refl)).
Defined.

End ExtraProviders.

Module OrchestratorFacts.
Import Store Orchestrators.

Lemma search_length_le (env : Env) json_loads cosine (db : DB) (query : string)
  (limit : Z) (m : Q) (hits : list Hit) :
  (0 <= limit)%Z ->
  search_similar_chunks env json_loads cosine db query limit m = Ok hits ->
  List.length hits <= Z.to_nat limit.
Proof.
  intros Hl. unfold search_similar_chunks.
  destruct (_generate_embedding env query); [|discriminate].
  intro H. injection H as <-. unfold py_take.
  apply Z.leb_le in Hl. rewrite Hl. apply firstn_le_length.
Qed.

Lemma round1_nonneg (x : Q) : (0 <= x)%Q -> (0 <= round1 x)%Q.
Proof.
  intros H0. unfold round1.
  set (t := (x * 10)%Q). set (f := Qfloor t).
  assert (Hf2 : (t < inject_Z (f + 1))%Q) by apply Qlt_floor.
  assert (Ht : (0 <= t)%Q) by (unfold t; Lqa.lra).
  assert (Hf0 : (0 <= f)%Z).
  { destruct (Z_lt_le_dec f 0) as [Hl|Hl]; [exfalso|exact Hl].
    assert (Hq : (inject_Z (f + 1) <= inject_Z 0)%Q) by (rewrite <- Zle_Qle; lia).
    change (inject_Z 0) with 0%Q in Hq. Lqa.lra. }
  assert (Hn : forall n : Z, (0 <= n)%Z -> (0 <= inject_Z n / 10)%Q).
  { intros n Hn0. rewrite Zle_Qle in Hn0. change (inject_Z 0) with 0%Q in Hn0.
    unfold Qdiv. change (/ 10)%Q with (1 # 10). Lqa.lra. }
  destruct (Qltb (t - inject_Z f) (1 # 2)); [apply Hn; lia|].
  destruct (Qltb (1 # 2) (t - inject_Z f)); [apply Hn; lia|].
  destruct (Z.even f); apply Hn; lia.
Qed.

End OrchestratorFacts.

Module PreviewFacts.

Lemma substring0_length (n : nat) (s : string) :
  String.length (substring 0 n s) = Nat.min n (String.length s).
Proof.
  revert s. induction n as [|n IH]; intros s; [destruct s; reflexivity|].
  destruct s as [|c s]; [reflexivity|]. simpl. rewrite IH. reflexivity.
Qed.

Lemma prefix_substring0 (n : nat) (s : string) :
  String.prefix (substring 0 n s) s = true.
Proof.
  revert s. induction n as [|n IH]; intros s; [destruct s; reflexivity|].
  destruct s as [|c s]; [reflexivity|]. simpl.
  destruct (Ascii.ascii_dec c c); [apply IH|contradiction].
Qed.

Lemma prefix_trans (a b c : string) :
  String.prefix a b = true -> String.prefix b c = true -> String.prefix a c = true.
Proof.
  revert b c. induction a as [|x a IH]; intros b c Hab Hbc;
    [destruct c; reflexivity|].
  destruct b as [|y b]; [discriminate|]. destruct c as [|z c]; [discriminate|].
  simpl in *. destruct (Ascii.ascii_dec x y); [|discriminate].
  destruct (Ascii.ascii_dec y z); [|discriminate]. subst.
  destruct (Ascii.ascii_dec z z); [|contradiction]. apply (IH b); assumption.
Qed.

(** Every result of [rfind] on a 150-character window is [-1] or leaves
    room for the searched text before index 150. *)
Lemma rfind_window (text sub : string) :
  (-1 <= Py.rfind text sub 0 150 <= Z.max (-1) (150 - Z.of_nat (String.length sub)))%Z.
Proof.
  destruct (PyFacts.rfind_bound text sub 0 150) as [H|[i [H [_ Hi]]]];
    rewrite H; lia.
Qed.

End PreviewFacts.

Module ExtraOrchestrators.
Import Store Orchestrators OrchestratorFacts PreviewFacts.

(** [answer_question] reports as [chunks_found] exactly the number of
    sources it returns, on success and on error. *)
Theorem answer_question_chunks_found (qe : QueryEngine)
  (search : string -> Z -> Q -> Exc (list Hit))
  (generate : string -> list Hit -> Exc Reply) (question : string) :
  let r := answer_question qe search generate question in
  qa_chunks_found r = List.length (qa_sources r).
Proof.
  cbv zeta. unfold answer_question.
  destruct (generate _ _) as [resp|e]; [|reflexivity].
  destruct (rp_answer resp), (rp_confidence resp); try reflexivity.
  cbn [qa_chunks_found qa_sources]. unfold _build_source_info.
  rewrite length_map. reflexivity.
Qed.

Lemma store_sources_bounds (qe : QueryEngine) (env : Env)
  (json_loads : string -> option vec) (cosine : vec -> vec -> Q) (db : DB)
  (generate : string -> list Hit -> Exc Reply) (question : string)
  (Hmax : (0 <= max_context_chunks qe)%Z)
  (Hmin : (0 <= min_similarity_threshold qe)%Q) :
  let r := answer_question qe (search_similar_chunks env json_loads cosine db)
             generate question in
  List.length (qa_sources r) <= Z.to_nat (max_context_chunks qe)
  /\ forall s, In s (qa_sources r) ->
       (0 <= s_relevance_score s)%Q
       /\ exists ch, In (f_row ch) (firstn 50 (chunks db))
                     /\ s_filename s = f_filename ch
                     /\ s_chunk_index s = c_chunk_index (f_row ch).
Proof.
  cbv zeta. unfold answer_question.
  set (search := search_similar_chunks env json_loads cosine db).
  assert (Hrel : forall h, In h (_retrieve_relevant_chunks qe search question) ->
            (0 <= similarity h)%Q
            /\ In (f_row (h_chunk h)) (firstn 50 (chunks db))).
  { intros h Hh. unfold _retrieve_relevant_chunks in Hh.
    destruct (search _ _ _) as [hits|e] eqn:Es; [|destruct Hh].
    destruct (SearchFacts.in_search env json_loads cosine db question _ _ hits h
                Es Hh) as [Hc Hge].
    split; [eapply Qle_trans; [exact Hmin|exact Hge]|].
    apply SearchFacts.in_get_all_chunks, Hc. }
  assert (Hlen : List.length (_retrieve_relevant_chunks qe search question)
                 <= Z.to_nat (max_context_chunks qe)).
  { unfold _retrieve_relevant_chunks.
    destruct (search _ _ _) as [hits|e] eqn:Es; [|simpl; lia].
    exact (search_length_le env json_loads cosine db question _ _ hits Hmax Es). }
  destruct (generate _ _) as [resp|e];
    [|split; [simpl; lia|intros s []]].
  destruct (rp_answer resp) as [a|], (rp_confidence resp) as [c|];
    try (split; [simpl; lia|intros s []]).
  cbn [qa_sources]. unfold _build_source_info. split.
  - rewrite length_map. exact Hlen.
  - intros s Hs. apply in_map_iff in Hs as [h [<- Hh]].
    destruct (Hrel h Hh) as [H0 Hrow]. cbn [s_relevance_score s_filename s_chunk_index].
    split.
    + apply round1_nonneg. Lqa.lra.
    + exists (h_chunk h). split; [exact Hrow|split; reflexivity].
Qed.

(** Over the embedding store's search, with a non-negative chunk limit
    and a non-negative threshold: an answer cites at most
    [max_context_chunks] sources, each with a non-negative relevance, and
    each one names a chunk row among the first 50 stored rows, with that
    row's chunk index and its document's file name. *)
Theorem answer_question_store_sources (qe : QueryEngine) (env : Env)
  (json_loads : string -> option vec) (cosine : vec -> vec -> Q) (db : DB)
  (generate : string -> list Hit -> Exc Reply) (question : string)
  (Hmax : (0 <= max_context_chunks qe)%Z)
  (Hmin : (0 <= min_similarity_threshold qe)%Q) :
  let r := answer_question qe (search_similar_chunks env json_loads cosine db)
             generate question in
  List.length (qa_sources r) <= Z.to_nat (max_context_chunks qe)
  /\ forall s, In s (qa_sources r) ->
       (0 <= s_relevance_score s)%Q
       /\ exists ch, In (f_row ch) (firstn 50 (chunks db))
                     /\ s_filename s = f_filename ch
                     /\ s_chunk_index s = c_chunk_index (f_row ch).
Proof.
  exact (store_sources_bounds qe env json_loads cosine db generate question Hmax Hmin).
Qed.

Lemma answer_question_store_sources_witness :
  (0 <= max_context_chunks default_engine)%Z
  /\ (0 <= min_similarity_threshold default_engine)%Q
  /\ (let r := answer_question default_engine
                (search_similar_chunks SearchSamples.sample_env (fun _ => None)
                   SearchSamples.dotQ OrchestratorSamples.indexed_db)
                OrchestratorSamples.sample_generate "Revenue?" in
      List.length (qa_sources r) <= Z.to_nat (max_context_chunks default_engine)
      /\ forall s, In s (qa_sources r) ->
           (0 <= s_relevance_score s)%Q
           /\ exists ch, In (f_row ch) (firstn 50 (chunks OrchestratorSamples.indexed_db))
                         /\ s_filename s = f_filename ch
                         /\ s_chunk_index s = c_chunk_index (f_row ch))
  /\ qa_sources (answer_question default_engine
                  (search_similar_chunks SearchSamples.sample_env (fun _ => None)
                     SearchSamples.dotQ OrchestratorSamples.indexed_db)
                  OrchestratorSamples.sample_generate "Revenue?") <> [].
Proof.
  assert (Hm : (0 <= max_context_chunks default_engine)%Z)
    by (unfold default_engine; simpl; lia).
  assert (Ht : (0 <= min_similarity_threshold default_engine)%Q)
    by (unfold default_engine; simpl; unfold Qle; simpl; lia).
  split; [exact Hm|]. split; [exact Ht|]. split.
  - exact (answer_question_store_sources default_engine SearchSamples.sample_env
             (fun _ => None) SearchSamples.dotQ OrchestratorSamples.indexed_db
             OrchestratorSamples.sample_generate "Revenue?" Hm Ht).
  - vm_compute. discriminate.
Defined.

(** [_get_chunk_preview] returns a text of at most 150 characters
    unchanged; a longer text becomes a prefix of it of 107 to 150
    characters followed by ["..."]. *)
Theorem chunk_preview_shape (text : string) :
  (String.length text <= 150 -> _get_chunk_preview text = text)
  /\ (150 < String.length text ->
      exists pre, _get_chunk_preview text = (pre ++ "...")%string
                  /\ String.prefix pre text = true
                  /\ 107 <= String.length pre <= 150).
Proof.
  unfold _get_chunk_preview. destruct (String.eqb text "") eqn:E.
  { apply String.eqb_eq in E. subst text. split; [reflexivity|simpl; lia]. }
  split.
  { intros Hl. apply Nat.leb_le in Hl. rewrite Hl. reflexivity. }
  intros Hl. destruct (String.length text <=? 150) eqn:El;
    [apply Nat.leb_le in El; lia|].
  set (tr := substring 0 150 text).
  assert (Htl : String.length tr = 150)
    by (unfold tr; rewrite substring0_length; lia).
  assert (Htp : String.prefix tr text = true) by apply prefix_substring0.
  pose proof (rfind_window tr ". ") as R1.
  pose proof (rfind_window tr "! ") as R2.
  pose proof (rfind_window tr "? ") as R3.
  pose proof (rfind_window tr " ") as R4.
  cbn [String.length] in R1, R2, R3, R4.
  set (ls := Z.max (Py.rfind tr ". " 0 150)
               (Z.max (Py.rfind tr "! " 0 150) (Py.rfind tr "? " 0 150))).
  assert (Hls : (ls <= 148)%Z) by (unfold ls; lia).
  destruct (105 <? ls)%Z eqn:E1.
  - apply Z.ltb_lt in E1.
    exists (substring 0 (Z.to_nat (ls + 1)) tr). split; [reflexivity|]. split.
    + apply (prefix_trans _ tr); [apply prefix_substring0|exact Htp].
    + rewrite substring0_length, Htl. lia.
  - destruct (120 <? Py.rfind tr " " 0 150)%Z eqn:E2.
    + apply Z.ltb_lt in E2.
      exists (substring 0 (Z.to_nat (Py.rfind tr " " 0 150)) tr).
      split; [reflexivity|]. split.
      * apply (prefix_trans _ tr); [apply prefix_substring0|exact Htp].
      * rewrite substring0_length, Htl. lia.
    + exists tr. split; [reflexivity|]. split; [exact Htp|lia].
Qed.

End ExtraOrchestrators.

Module ExtraApi.
Import Store Orchestrators Api.


(** The [chunkSize] and [chunkOverlap] settings of a question request
    are only echoed back: two requests with the same question,
    [maxChunks] and [aiModel] get the same outcome, with the same answer,
    confidence, sources and model. *)
Theorem ask_question_chunk_settings_ignored
  (search : string -> Z -> Q -> Exc (list Hit))
  (generate_for : AiInterface -> string -> list Hit -> Exc Reply)
  (question : option string) (cs1 cs2 : option ChunkingSettings)
  (Hmax : setting cs1 maxChunks 20%Z = setting cs2 maxChunks 20%Z)
  (Hmodel : setting cs1 aiModel "claude" = setting cs2 aiModel "claude") :
  match ask_question search generate_for
          {| rq_question := question; rq_chunking_settings := cs1 |},
        ask_question search generate_for
          {| rq_question := question; rq_chunking_settings := cs2 |} with
  | HTTPOk b1, HTTPOk b2 =>
      ar_answer b1 = ar_answer b2 /\ ar_confidence b1 = ar_confidence b2
      /\ ar_sources b1 = ar_sources b2 /\ ar_model_used b1 = ar_model_used b2
  | HTTPException c1 d1, HTTPException c2 d2 => c1 = c2 /\ d1 = d2
  | _, _ => False
  end.
Proof.
  unfold ask_question, ask_question_body. cbn [rq_question rq_chunking_settings].
  destruct (String.eqb (match question with Some q => q | None => "" end) "");
    [split; reflexivity|].
  cbv zeta. rewrite Hmax, Hmodel. cbn [ar_answer ar_confidence ar_sources ar_model_used].
  repeat split.
Qed.

Lemma ask_question_chunk_settings_ignored_witness :
  let cs1 := Some {| chunkSize := Some 1000%Z; chunkOverlap := Some 50%Z;
                     maxChunks := None; aiModel := None |} in
  setting cs1 maxChunks 20%Z = setting None maxChunks 20%Z
  /\ setting cs1 aiModel "claude" = setting None aiModel "claude"
  /\ match ask_question (fun _ _ _ => Ok []) (fun _ _ _ => Err "down")
             {| rq_question := Some "Revenue?"; rq_chunking_settings := cs1 |},
           ask_question (fun _ _ _ => Ok []) (fun _ _ _ => Err "down")
             {| rq_question := Some "Revenue?"; rq_chunking_settings := None |} with
     | HTTPOk b1, HTTPOk b2 =>
         ar_answer b1 = ar_answer b2 /\ ar_confidence b1 = ar_confidence b2
         /\ ar_sources b1 = ar_sources b2 /\ ar_model_used b1 = ar_model_used b2
     | HTTPException c1 d1, HTTPException c2 d2 => c1 = c2 /\ d1 = d2
     | _, _ => False
     end.
Proof.
  cbv zeta. split; [reflexivity|]. split; [reflexivity|].
  exact (ask_question_chunk_settings_ignored (fun _ _ _ => Ok []) (fun _ _ _ => Err "down")
           (Some "Revenue?")
           (Some {| chunkSize := Some 1000%Z; chunkOverlap := Some 50%Z;
                    maxChunks := None; aiModel := None |}) None eq_refl eq_refl).
Defined.

(** Over the embedding store's search with a non-negative [maxChunks]
    (default [20]): the endpoint either rejects the request with status
    [500] or answers a non-empty question with at most [max_chunks]
    sources, each with a non-negative relevance. *)
Theorem ask_question_store_sources (env : Env) (json_loads : string -> option vec)
  (cosine : vec -> vec -> Q) (db : DB)
  (generate_for : AiInterface -> string -> list Hit -> Exc Reply)
  (request : AskRequest)
  (Hmax : (0 <= setting (rq_chunking_settings request) maxChunks 20)%Z) :
  match ask_question (search_similar_chunks env json_loads cosine db)
          generate_for request with
  | HTTPOk b =>
      ar_question b <> ""
      /\ List.length (ar_sources b) <= Z.to_nat (ar_max_chunks b)
      /\ forall s, In s (ar_sources b) -> (0 <= s_relevance_score s)%Q
  | HTTPException code _ => code = 500
  end.
Proof.
  unfold ask_question, ask_question_body.
  destruct (String.eqb _ "") eqn:Eq; [reflexivity|].
  cbv zeta. cbn [ar_question ar_sources ar_max_chunks].
  split; [intro H; rewrite H in Eq; discriminate|].
  edestruct (ExtraOrchestrators.store_sources_bounds
               {| max_context_chunks := setting (rq_chunking_settings request) maxChunks 20%Z;
                  min_similarity_threshold := 1 # 10 |}
               env json_loads cosine db) as [Hl Hs];
    [exact Hmax|unfold Qle; simpl; lia|].
  split; [exact Hl|]. intros s Hin. exact (proj1 (Hs s Hin)).
Qed.

Lemma ask_question_store_sources_witness :
  (0 <= setting None maxChunks 20)%Z
  /\ match ask_question (search_similar_chunks SearchSamples.sample_env (fun _ => None)
                          SearchSamples.dotQ OrchestratorSamples.indexed_db)
             (fun _ => OrchestratorSamples.sample_generate)
             {| rq_question := Some "Revenue?"; rq_chunking_settings := None |} with
     | HTTPOk b =>
         ar_question b <> ""
         /\ List.length (ar_sources b) <= Z.to_nat (ar_max_chunks b)
         /\ forall s, In s (ar_sources b) -> (0 <= s_relevance_score s)%Q
     | HTTPException code _ => code = 500
     end
  /\ match ask_question (search_similar_chunks SearchSamples.sample_env (fun _ => None)
                          SearchSamples.dotQ OrchestratorSamples.indexed_db)
             (fun _ => OrchestratorSamples.sample_generate)
             {| rq_question := Some "Revenue?"; rq_chunking_settings := None |} with
     | HTTPOk b => ar_sources b <> []
     | HTTPException _ _ => False
     end.
Proof.
  assert (Hm : (0 <= setting None maxChunks 20)%Z) by (simpl; lia).
  split; [exact Hm|]. split.
  - exact (ask_question_store_sources SearchSamples.sample_env (fun _ => None)
             SearchSamples.dotQ OrchestratorSamples.indexed_db
             (fun _ => OrchestratorSamples.sample_generate)
             {| rq_question := Some "Revenue?"; rq_chunking_settings := None |} Hm).
  - vm_compute. discriminate.
Defined.

End ExtraApi.

Module DatabaseFacts.
Import Py ParserMore.

Lemma split_char_nonempty (sep : ascii) (s : string) : split_char sep s <> [].
Proof.
  destruct s as [|c s]; simpl; [discriminate|].
  destruct (Ascii.eqb c sep); [discriminate|].
  destruct (split_char sep s); discriminate.
Qed.

Lemma join_cons2 (sep x y : string) (r : list string) :
  join sep (x :: y :: r) = (x ++ sep ++ join sep (y :: r))%string.
Proof. reflexivity. Qed.

(** Joining the parts of a split at the separator gives back the text. *)
Lemma join_split (sep : ascii) (s : string) :
  join (String sep "") (split_char sep s) = s.
Proof.
  induction s as [|c s IH]; [reflexivity|]. simpl.
  destruct (Ascii.eqb c sep) eqn:E.
  - apply Ascii.eqb_eq in E. subst c.
    destruct (split_char sep s) as [|w ws] eqn:Es;
      [exfalso; exact (split_char_nonempty sep s Es)|].
    rewrite join_cons2, <- IH. reflexivity.
  - destruct (split_char sep s) as [|w ws] eqn:Es;
      [exfalso; exact (split_char_nonempty sep s Es)|].
    destruct ws as [|w' ws].
    + simpl in IH |- *. rewrite IH. reflexivity.
    + rewrite join_cons2. rewrite join_cons2 in IH. rewrite <- IH. reflexivity.
Qed.

Lemma join_app_last (sep : string) (init : list string) (x : string) :
  init <> [] -> join sep (init ++ [x]) = (join sep init ++ sep ++ x)%string.
Proof.
  induction init as [|y r IH]; intros Hne; [congruence|].
  destruct r as [|z r]; [reflexivity|].
  change ((y :: z :: r) ++ [x])%list with (y :: ((z :: r) ++ [x]))%list.
  destruct ((z :: r) ++ [x])%list as [|u rr] eqn:Eu; [destruct r; discriminate|].
  rewrite join_cons2, IH by discriminate.
  rewrite join_cons2. rewrite !StringMore.sappend_assoc. reflexivity.
Qed.

Lemma contains_char (s : string) (c : ascii) :
  contains s (String c "") = true -> In c (list_ascii_of_string s).
Proof.
  induction s as [|d s IH]; intros H; cbn [contains] in H; [discriminate|].
  apply orb_true_iff in H as [H|H].
  - simpl in H. destruct (Ascii.ascii_dec c d); [subst; left; reflexivity|discriminate].
  - right. apply IH, H.
Qed.

Lemma In_last {A} (l : list A) (d : A) : l <> [] -> In (last l d) l.
Proof.
  induction l as [|x r IH]; intros Hne; [congruence|].
  destruct r as [|y r]; [left; reflexivity|].
  right. apply IH. discriminate.
Qed.

End DatabaseFacts.

Module ExtraDatabase.
Import Store Database ParserMore DatabaseFacts.

(** [save_file] fails only when reading the upload fails, with the
    message ["Failed to save file: ..."]. Otherwise it returns
    ["pdfs/<file_id>.<ext>"], or the same under ["local/"] when the
    storage upload failed, where [ext] has no dot and is either what
    follows the last dot of the file name or ["pdf"] for a name without
    a dot. *)
Theorem save_file_path (file_id filename : string) (read : Exc unit)
  (outcome : StorageOutcome) :
  match save_file file_id filename read outcome with
  | Err e => exists m, read = Err m /\ e = ("Failed to save file: " ++ m)%string
  | Ok path =>
      (exists u, read = Ok u)
      /\ exists ext,
           (path = ("pdfs/" ++ file_id ++ "." ++ ext)%string
            \/ path = ("local/pdfs/" ++ file_id ++ "." ++ ext)%string)
           /\ no_char "." ext
           /\ ((exists stem, filename = (stem ++ "." ++ ext)%string)
               \/ (Py.contains filename "." = false /\ ext = "pdf"))
  end.
Proof.
  assert (Hext : no_char "." (file_extension filename)
                 /\ ((exists stem, filename = (stem ++ "." ++ file_extension filename)%string)
                     \/ (Py.contains filename "." = false
                         /\ file_extension filename = "pdf"))).
  { unfold file_extension. destruct (Py.contains filename ".") eqn:Ec.
    2: { split; [|right; split; reflexivity].
         intros [H|[H|[H|[]]]]; discriminate H. }
    set (ws := Py.split_char "." filename).
    assert (Hne : ws <> []) by apply split_char_nonempty.
    assert (Hlast : no_char "." (last ws ""))
      by exact (split_char_no_sep "." filename _ (In_last ws "" Hne)).
    split; [exact Hlast|left].
    pose proof (join_split "." filename) as Hj. fold ws in Hj.
    rewrite (app_removelast_last "" Hne) in Hj.
    destruct (removelast ws) as [|w r] eqn:Er.
    - exfalso. simpl in Hj. apply Hlast. rewrite Hj. apply contains_char, Ec.
    - exists (Py.join "." (w :: r)).
      rewrite join_app_last in Hj by discriminate. symmetry. exact Hj. }
  unfold save_file. destruct read as [u|m].
  - destruct outcome; cbv beta iota zeta;
      (split; [exists u; reflexivity|]); exists (file_extension filename);
      (split; [|exact Hext]); [right|right|left|left]; reflexivity.
  - cbv beta iota zeta. exists m. split; reflexivity.
Qed.

End ExtraDatabase.

Module CleanFacts.
Import Store ParserMore.

Definition no_space (w : list ascii) : Prop :=
  forall c, In c w -> Py.is_space c = false.

Lemma words_l_shape (l cur : list ascii) :
  no_space cur ->
  forall w, In w (words_l cur l) -> w <> [] /\ no_space w.
Proof.
  revert cur. induction l as [|c r IH]; intros cur Hcur w Hw; simpl in Hw.
  - destruct cur as [|x cur']; [destruct Hw|].
    destruct Hw as [<-|[]]. split.
    + intro H. apply (f_equal (@List.length ascii)) in H.
      rewrite length_rev in H. discriminate.
    + intros d Hd. apply Hcur. apply in_rev, Hd.
  - destruct (Py.is_space c) eqn:Ec.
    + destruct cur as [|x cur'].
      * exact (IH [] (fun _ H => match H with end) w Hw).
      * destruct Hw as [<-|Hw].
        -- split.
           ++ intro H. apply (f_equal (@List.length ascii)) in H.
              rewrite length_rev in H. discriminate.
           ++ intros d Hd. apply Hcur. apply in_rev, Hd.
        -- exact (IH [] (fun _ H => match H with end) w Hw).
    + apply (IH (c :: cur)); [|exact Hw].
      intros d [<-|Hd]; [exact Ec|exact (Hcur d Hd)].
Qed.

Lemma words_l_app (w r cur : list ascii) :
  no_space w -> words_l cur (w ++ r) = words_l (rev w ++ cur) r.
Proof.
  revert cur. induction w as [|c w IH]; intros cur Hw; [reflexivity|].
  simpl. rewrite (Hw c (or_introl eq_refl)).
  rewrite IH by (intros d Hd; apply Hw; right; exact Hd).
  rewrite <- app_assoc. reflexivity.
Qed.

Lemma list_ascii_app (a b : string) :
  list_ascii_of_string (a ++ b) = (list_ascii_of_string a ++ list_ascii_of_string b)%list.
Proof. induction a as [|c a IH]; simpl; [reflexivity|rewrite IH; reflexivity]. Qed.

(** [text.split()] of [" ".join(words)] gives back the words. *)
Lemma words_join (ws : list (list ascii)) :
  (forall w, In w ws -> w <> [] /\ no_space w) ->
  words_l [] (list_ascii_of_string (Py.join " " (map string_of_list_ascii ws))) = ws.
Proof.
  induction ws as [|w [|w' r] IH]; intros H; [reflexivity| |].
  - simpl. rewrite list_ascii_of_string_of_list_ascii.
    destruct (H w (or_introl eq_refl)) as [Hne Hw].
    rewrite <- (app_nil_r w) at 1. rewrite words_l_app by exact Hw.
    rewrite app_nil_r. simpl. destruct (rev w) eqn:Er.
    + exfalso. apply Hne. rewrite <- (rev_involutive w), Er. reflexivity.
    + rewrite <- Er, rev_involutive. reflexivity.
  - destruct (H w (or_introl eq_refl)) as [Hne Hw].
    change (map string_of_list_ascii (w :: w' :: r))
      with (string_of_list_ascii w :: string_of_list_ascii w' :: map string_of_list_ascii r).
    rewrite DatabaseFacts.join_cons2, !list_ascii_app,
      list_ascii_of_string_of_list_ascii, words_l_app by exact Hw.
    rewrite app_nil_r. simpl.
    destruct (rev w) eqn:Er.
    + exfalso. apply Hne. rewrite <- (rev_involutive w), Er. reflexivity.
    + rewrite <- Er, rev_involutive. f_equal. apply IH.
      intros x Hx. apply H. right. exact Hx.
Qed.

Lemma join_chars (ws : list (list ascii)) (c : ascii) :
  In c (list_ascii_of_string (Py.join " " (map string_of_list_ascii ws))) ->
  c = " "%char \/ exists w, In w ws /\ In c w.
Proof.
  induction ws as [|w [|w' r] IH]; intros Hc; [destruct Hc| |].
  - simpl in Hc. rewrite list_ascii_of_string_of_list_ascii in Hc.
    right. exists w. split; [left; reflexivity|exact Hc].
  - change (map string_of_list_ascii (w :: w' :: r))
      with (string_of_list_ascii w :: string_of_list_ascii w' :: map string_of_list_ascii r) in Hc.
    rewrite DatabaseFacts.join_cons2, !list_ascii_app,
      list_ascii_of_string_of_list_ascii in Hc.
    apply in_app_or in Hc as [Hc|Hc]; [right; exists w; split; [left|]; auto|].
    simpl in Hc. destruct Hc as [<-|Hc]; [left; reflexivity|].
    destruct (IH Hc) as [Hs|[x [Hx Hcx]]]; [left; exact Hs|].
    right. exists x. split; [right; exact Hx|exact Hcx].
Qed.

(** The text [_clean_text] embeds once its newline loop is unfolded: the
    words joined by single spaces, or nothing for a long line of few
    distinct characters. *)
Definition clean_line (text : string) : string :=
  let joined := Py.join " " (map string_of_list_ascii
                               (words_l [] (list_ascii_of_string text))) in
  if (50 <? String.length joined)
     && (List.length (dedup (filter (fun c => negb (Ascii.eqb c " "))
                               (list_ascii_of_string joined))) <? 5)
  then "" else joined.

Lemma joined_no_newline (text : string) :
  no_char (ascii_of_nat 10)
    (Py.join " " (map string_of_list_ascii (words_l [] (list_ascii_of_string text)))).
Proof.
  intros Hc. apply join_chars in Hc as [Hc|[w [Hw Hcw]]]; [discriminate Hc|].
  destruct (words_l_shape _ [] (fun _ H => match H with end) w Hw) as [_ Hs].
  specialize (Hs _ Hcw). discriminate Hs.
Qed.

End CleanFacts.

Module ExtraClean.
Import Store ParserMore CleanFacts.

(** The line filter of [_clean_text] sees a single line, since the
    whitespace collapse has already removed every newline: the result is
    [""] for [""], otherwise the words of the text joined by single
    spaces, or [""] when that text is longer than 50 characters with
    fewer than 5 distinct non-space characters; it never contains a
    newline. *)
Theorem clean_text_single_line (text : string) :
  _clean_text text = (if String.eqb text "" then "" else clean_line text)
  /\ no_char (ascii_of_nat 10) (_clean_text text).
Proof.
  assert (Hc : _clean_text text = (if String.eqb text "" then "" else clean_line text)).
  { unfold _clean_text, clean_line. destruct (String.eqb text ""); [reflexivity|].
    cbv zeta. rewrite split_char_single by apply joined_no_newline.
    cbn [filter]. match goal with |- context [((50 <? ?x) && ?y)%bool] =>
      destruct ((50 <? x) && y)%bool end; reflexivity. }
  split; [exact Hc|]. rewrite Hc.
  destruct (String.eqb text ""); [intros []|].
  unfold clean_line. cbv zeta.
  match goal with |- context [if ?b then _ else _] => destruct b end;
    [intros []|apply joined_no_newline].
Qed.

(** [_clean_text] is idempotent: cleaning a cleaned text changes
    nothing. *)
Theorem clean_text_idempotent (text : string) :
  _clean_text (_clean_text text) = _clean_text text.
Proof.
  assert (Hchar : forall t, _clean_text t = (if String.eqb t "" then "" else clean_line t)).
  { intros t. unfold _clean_text, clean_line. destruct (String.eqb t ""); [reflexivity|].
    cbv zeta. rewrite split_char_single by apply joined_no_newline.
    cbn [filter]. match goal with |- context [((50 <? ?x) && ?y)%bool] =>
      destruct ((50 <? x) && y)%bool end; reflexivity. }
  rewrite (Hchar text). destruct (String.eqb text ""); [reflexivity|].
  unfold clean_line at 1 2. cbv zeta.
  set (ws := words_l [] (list_ascii_of_string text)).
  set (j := Py.join " " (map string_of_list_ascii ws)).
  destruct ((50 <? String.length j)
            && (List.length (dedup (filter (fun c => negb (Ascii.eqb c " "))
                                      (list_ascii_of_string j))) <? 5)) eqn:Ek;
    [reflexivity|].
  rewrite Hchar. destruct (String.eqb j "") eqn:Ej;
    [apply String.eqb_eq in Ej; symmetry; exact Ej|].
  unfold clean_line. cbv zeta.
  assert (Hw : words_l [] (list_ascii_of_string j) = ws)
    by (apply words_join; exact (words_l_shape _ [] (fun _ H => match H with end))).
  rewrite Hw. fold j. rewrite Ek. reflexivity.
Qed.

End ExtraClean.

Module ExtraAnalysis.
Import Analysis.

Lemma existsb_filter_nonempty {A} (f : A -> bool) (l : list A) :
  existsb f l = true -> filter f l <> [].
Proof.
  induction l as [|x r IH]; simpl; [discriminate|].
  destruct (f x); [discriminate|exact IH].
Qed.

(** [analyze_question_complexity] classifies a question as
    ["financial"], ["risk"] or ["general"]; it lists keywords exactly
    when the type is not ["general"], and each listed keyword occurs in
    the lower-cased question and belongs to the group of that type. *)
Theorem analysis_keywords_match_type (question : string) :
  let a := analyze_question_complexity question in
  (an_type a = "financial" \/ an_type a = "risk" \/ an_type a = "general")
  /\ (an_keywords a = [] <-> an_type a = "general")
  /\ forall w, In w (an_keywords a) ->
       Py.contains (Py.lower question) w = true
       /\ In w (if String.eqb (an_type a) "financial" then financial_keywords
                else risk_keywords).
Proof.
  cbv zeta. unfold analyze_question_complexity. cbv zeta.
  destruct (existsb (Py.contains (Py.lower question)) financial_keywords) eqn:Ef.
  - cbn [an_type an_keywords]. split; [left; reflexivity|]. split.
    + split; [intro H; exfalso; exact (existsb_filter_nonempty _ _ Ef H)|discriminate].
    + intros w Hw. apply filter_In in Hw as [Hin Hc]. split; [exact Hc|exact Hin].
  - destruct (existsb (Py.contains (Py.lower question)) risk_keywords) eqn:Er.
    + cbn [an_type an_keywords]. split; [right; left; reflexivity|]. split.
      * split; [intro H; exfalso; exact (existsb_filter_nonempty _ _ Er H)|discriminate].
      * intros w Hw. apply filter_In in Hw as [Hin Hc]. split; [exact Hc|exact Hin].
    + cbn [an_type an_keywords]. split; [right; right; reflexivity|].
      split; [split; reflexivity|intros w []].
Qed.

End ExtraAnalysis.
